(** * LeadImporter: column-mapping inference, validation and the import gate

    A shallow embedding of the lead importer component of the CRM front end
    (the [LeadImporter] React component): the registry of lead fields, the
    header-to-field inference run when a preview arrives, the mapping editor,
    the mapping validator and the two event handlers that talk to the server.

    JavaScript strings are sequences of UTF-16 code units; they are modelled
    as lists of integers.  React state is a record, and a handler is the list
    of state updates and requests it performs, in program order. *)

From Stdlib Require Import String Ascii ZArith Bool List Lia.
Import ListNotations.
Open Scope Z_scope.

(** ** JavaScript string and array primitives used by the component *)

Module JS.

Definition jsstring := list Z.

(** A string literal of the source (ASCII text) as code units. *)
Definition lit (s : string) : jsstring :=
  map (fun a => Z.of_N (N_of_ascii a)) (list_ascii_of_string s).

(** [a === b] on strings. *)
Fixpoint streq (a b : jsstring) : bool :=
  match a, b with
  | [], [] => true
  | x :: a', y :: b' => (x =? y) && streq a' b'
  | _, _ => false
  end.

(** Truthiness of a string: every string but the empty one. *)
Definition truthy (s : jsstring) : bool :=
  match s with [] => false | _ :: _ => true end.

(** [a || b] on strings. *)
Definition orElse (a b : jsstring) : jsstring :=
  if truthy a then a else b.

(** Lower-case form of one code unit.  The table is exact on U+0000..U+007F
    and on the two characters beyond it whose lower-case form holds an ASCII
    letter: KELVIN SIGN (U+212A, to k) and LATIN CAPITAL LETTER I WITH DOT
    ABOVE (U+0130, to i followed by U+0307, the only lower-casing that changes
    a string's length).  Every other cased character is sent by
    [String.prototype.toLowerCase] to code units beyond U+007F, as many as it
    had; such a unit is kept as it is here, so that the model agrees with
    JavaScript on the length of the result and on every ASCII unit in it. *)
Definition lowerUnit (c : Z) : list Z :=
  if (65 <=? c) && (c <=? 90) then [c + 32]
  else if c =? 8490 then [107]
  else if c =? 304 then [105; 775]
  else [c].

Definition toLowerCase (s : jsstring) : jsstring := flat_map lowerUnit s.

(** [p] is a prefix of [s]. *)
Fixpoint startsWith (s p : jsstring) : bool :=
  match p, s with
  | [], _ => true
  | _ :: _, [] => false
  | y :: p', x :: s' => (x =? y) && startsWith s' p'
  end.

(** [s.includes(p)]: [p] occurs in [s] as a substring. *)
Fixpoint includes (s p : jsstring) : bool :=
  startsWith s p ||
  match s with
  | [] => false
  | _ :: s' => includes s' p
  end.

(** [arr.includes(x)] on an array of strings. *)
Definition arrIncludes (arr : list jsstring) (x : jsstring) : bool :=
  existsb (streq x) arr.

(** [s.lastIndexOf(p)]: the greatest index at which [p] starts in [s], or -1.
    [i] is the index of the head of [s] in the whole string. *)
Fixpoint lastIndexOfFrom (i : Z) (s p : jsstring) : Z :=
  match s with
  | [] => if startsWith [] p then i else -1
  | _ :: s' =>
      let r := lastIndexOfFrom (i + 1) s' p in
      if 0 <=? r then r else if startsWith s p then i else -1
  end.

Definition lastIndexOf (s p : jsstring) : Z := lastIndexOfFrom 0 s p.

(** [s.slice(start)]: a negative [start] counts from the end, and the start
    is clamped to the string. *)
Definition slice (s : jsstring) (start : Z) : jsstring :=
  let len := Z.of_nat (length s) in
  let from := if start <? 0 then Z.max (len + start) 0 else Z.min start len in
  skipn (Z.to_nat from) s.

(** [arr.join(sep)] on an array of strings. *)
Fixpoint join (sep : jsstring) (arr : list jsstring) : jsstring :=
  match arr with
  | [] => []
  | [x] => x
  | x :: rest => x ++ sep ++ join sep rest
  end.

(** The character class [a-z0-9] of the normalising regular expression. *)
Definition isLowerAlnum (c : Z) : bool :=
  ((97 <=? c) && (c <=? 122)) || ((48 <=? c) && (c <=? 57)).

(** [s.replace(/[^a-z0-9]/g, '')]: every unit outside the class is removed. *)
Definition stripNonAlnum (s : jsstring) : jsstring := filter isLowerAlnum s.

End JS.

Import JS.

(** ** Data model *)

Record ColumnMapping := mkColumnMapping {
  csvColumn : jsstring;
  leadField : jsstring
}.

Record ValidationInfo := mkValidationInfo {
  field : jsstring;
  required : bool;
  description : jsstring;
  example : option jsstring
}.

Record PreviewData := mkPreviewData {
  headers : list jsstring;
  rows : list (list jsstring);
  totalRows : Z
}.

Record File := mkFile {
  name : jsstring;
  contents : list Z
}.

Record User := mkUser {
  id : Z;
  email : jsstring;
  is_active : bool
}.

Record ImportFailure := mkImportFailure {
  failure_row : Z;
  failure_data : list (jsstring * jsstring);
  failure_error : jsstring
}.

Record ImportResult := mkImportResult {
  message : jsstring;
  successful_imports : Z;
  failed_imports : Z;
  warnings : list jsstring;
  failures : list ImportFailure
}.

Inductive Step := StepUpload | StepMapping | StepImport.

(** The component's state: one field per [useState] hook. *)
Record State := mkState {
  users : list User;
  selectedUser : jsstring;
  file : option File;
  previewData : option PreviewData;
  columnMappings : list ColumnMapping;
  isUploading : bool;
  isProcessingFile : bool;
  importResult : option ImportResult;
  error : jsstring;
  showModal : bool;
  currentStep : Step;
  showAllPreview : bool
}.

(** The two requests the handlers below send (the bearer token they carry
    is left out). *)
Inductive Request :=
| PreviewRequest (f : File)
    (* POST /api/import/leads/preview *)
| ImportRequest (f : File) (assigned_user_email : jsstring)
                (column_mappings : list ColumnMapping).
    (* POST /api/import/leads/generic *)

(** What a handler does, step by step: the state setters it calls, the
    requests it sends, and the reset of the file input element. *)
Inductive Effect :=
| SetSelectedUser (u : jsstring)
| SetFile (f : option File)
| SetPreviewData (p : option PreviewData)
| SetColumnMappings (upd : list ColumnMapping -> list ColumnMapping)
| SetIsUploading (b : bool)
| SetIsProcessingFile (b : bool)
| SetImportResult (r : option ImportResult)
| SetError (e : jsstring)
| SetCurrentStep (s : Step)
| Fetch (r : Request)
| ClearFileInput
| ConsoleError (e : jsstring).

(** ** The registry of lead fields *)

Definition leadFields : list ValidationInfo :=
  [ mkValidationInfo (lit "name") true (lit "Company/Organization name") (Some (lit "Acme Corporation"));
    mkValidationInfo (lit "contact_person") false (lit "Primary contact person name") (Some (lit "John Smith"));
    mkValidationInfo (lit "contact_title") false (lit "Contact person job title") (Some (lit "Operations Manager"));
    mkValidationInfo (lit "email") false (lit "Primary email address") (Some (lit "john@acme.com"));
    mkValidationInfo (lit "phone") false (lit "Primary phone number") (Some (lit "(555) 123-4567"));
    mkValidationInfo (lit "phone_label") false (lit "Phone type (work, mobile, home)") (Some (lit "work"));
    mkValidationInfo (lit "secondary_phone") false (lit "Secondary phone number") (Some (lit "(555) 987-6543"));
    mkValidationInfo (lit "secondary_phone_label") false (lit "Secondary phone type") (Some (lit "mobile"));
    mkValidationInfo (lit "address") false (lit "Street address") (Some (lit "123 Main St"));
    mkValidationInfo (lit "city") false (lit "City name") (Some (lit "Houston"));
    mkValidationInfo (lit "state") false (lit "State/Province") (Some (lit "TX"));
    mkValidationInfo (lit "zip") false (lit "ZIP/Postal code") (Some (lit "77001"));
    mkValidationInfo (lit "notes") false (lit "Additional information") (Some (lit "Potential customer from trade show"));
    mkValidationInfo (lit "type") false (lit "Business type (Oil & Gas, Secondary Containment, etc.)") (Some (lit "Oil & Gas"));
    mkValidationInfo (lit "lead_status") false (lit "Lead status (open, qualified, proposal, closed)") (Some (lit "open")) ].

(** ** Mapping inference (the callback of [preview.headers.map] in
    [handleFileChange]) *)

Definition normalizedHeader (header : jsstring) : jsstring :=
  stripNonAlnum (toLowerCase header).

(** [has n w] is [normalizedHeader.includes(w)] for a literal [w]. *)
Definition has (n : jsstring) (w : string) : bool := includes n (lit w).

(** The chain of conditionals that sets [suggestedField], first match wins;
    [n] is the normalised header. *)
Definition suggestedField (n : jsstring) : jsstring :=
  if has n "name" || has n "company" || has n "plant" then lit "name"
  else if has n "contact" && (has n "person" || has n "name") then lit "contact_person"
  else if has n "title" then lit "contact_title"
  else if has n "email" then lit "email"
  else if has n "phone" && negb (has n "secondary") then lit "phone"
  else if has n "phone" && has n "secondary" then lit "secondary_phone"
  else if has n "address" then lit "address"
  else if has n "city" then lit "city"
  else if has n "state" then lit "state"
  else if has n "zip" || has n "postal" then lit "zip"
  else if has n "note" || has n "desc" then lit "notes"
  else if has n "type" || has n "industry" then lit "type"
  else if has n "status" then lit "lead_status"
  else [].

Definition suggestMapping (header : jsstring) : ColumnMapping :=
  {| csvColumn := header;
     leadField := suggestedField (normalizedHeader header) |}.

Definition initialMappings (hs : list jsstring) : list ColumnMapping :=
  map suggestMapping hs.

(** ** The mapping editor *)

Definition updateMapping (csvColumn' leadField' : jsstring)
    (prev : list ColumnMapping) : list ColumnMapping :=
  map (fun mapping =>
         if streq (csvColumn mapping) csvColumn'
         then {| csvColumn := csvColumn mapping; leadField := leadField' |}
         else mapping)
      prev.

(** ** The mapping validator *)

Definition requiredFields : list jsstring :=
  map field (filter required leadFields).

Definition mappedFields (columnMappings : list ColumnMapping) : list jsstring :=
  map leadField (filter (fun m => truthy (leadField m)) columnMappings).

Definition missingRequired (columnMappings : list ColumnMapping) : list jsstring :=
  filter (fun f => negb (arrIncludes (mappedFields columnMappings) f)) requiredFields.

Definition validateMappings (columnMappings : list ColumnMapping) : list jsstring :=
  let errors := [] in
  if (0 <? Z.of_nat (length (missingRequired columnMappings)))
  then errors ++ [lit "Missing required fields: " ++ join (lit ", ") (missingRequired columnMappings)]
  else errors.

(** ** State updates and handlers *)

Definition applyEffect (st : State) (e : Effect) : State :=
  match e with
  | SetSelectedUser u =>
      mkState (users st) u (file st) (previewData st) (columnMappings st)
              (isUploading st) (isProcessingFile st) (importResult st)
              (error st) (showModal st) (currentStep st) (showAllPreview st)
  | SetFile f =>
      mkState (users st) (selectedUser st) f (previewData st) (columnMappings st)
              (isUploading st) (isProcessingFile st) (importResult st)
              (error st) (showModal st) (currentStep st) (showAllPreview st)
  | SetPreviewData p =>
      mkState (users st) (selectedUser st) (file st) p (columnMappings st)
              (isUploading st) (isProcessingFile st) (importResult st)
              (error st) (showModal st) (currentStep st) (showAllPreview st)
  | SetColumnMappings upd =>
      mkState (users st) (selectedUser st) (file st) (previewData st)
              (upd (columnMappings st))
              (isUploading st) (isProcessingFile st) (importResult st)
              (error st) (showModal st) (currentStep st) (showAllPreview st)
  | SetIsUploading b =>
      mkState (users st) (selectedUser st) (file st) (previewData st)
              (columnMappings st)
              b (isProcessingFile st) (importResult st)
              (error st) (showModal st) (currentStep st) (showAllPreview st)
  | SetIsProcessingFile b =>
      mkState (users st) (selectedUser st) (file st) (previewData st)
              (columnMappings st)
              (isUploading st) b (importResult st)
              (error st) (showModal st) (currentStep st) (showAllPreview st)
  | SetImportResult r =>
      mkState (users st) (selectedUser st) (file st) (previewData st)
              (columnMappings st)
              (isUploading st) (isProcessingFile st) r
              (error st) (showModal st) (currentStep st) (showAllPreview st)
  | SetError e' =>
      mkState (users st) (selectedUser st) (file st) (previewData st)
              (columnMappings st)
              (isUploading st) (isProcessingFile st) (importResult st)
              e' (showModal st) (currentStep st) (showAllPreview st)
  | SetCurrentStep s =>
      mkState (users st) (selectedUser st) (file st) (previewData st)
              (columnMappings st)
              (isUploading st) (isProcessingFile st) (importResult st)
              (error st) (showModal st) s (showAllPreview st)
  | Fetch _ | ClearFileInput | ConsoleError _ => st
  end.

(** The state after a handler's effects. *)
Definition run (st : State) (es : list Effect) : State :=
  fold_left applyEffect es st.

(** The requests among a handler's effects, in the order sent. *)
Fixpoint requests (es : list Effect) : list Request :=
  match es with
  | [] => []
  | Fetch r :: es' => r :: requests es'
  | _ :: es' => requests es'
  end.

Definition validTypes : list jsstring := [lit ".csv"; lit ".xlsx"].

Definition fileExtension (selectedFile : File) : jsstring :=
  slice (toLowerCase (name selectedFile))
        (lastIndexOf (name selectedFile) (lit ".")).

(** [handleFileChange] up to its [await fetch]: [selectedFile] is
    [e.target.files?.[0]]. *)
Definition handleFileChange (selectedFile : option File) : list Effect :=
  match selectedFile with
  | None => []
  | Some f =>
      if negb (arrIncludes validTypes (fileExtension f))
      then [ SetError (lit "Please upload a CSV or Excel (.xlsx) file");
             SetFile None ]
      else [ SetFile (Some f);
             SetError [];
             SetIsProcessingFile true;
             Fetch (PreviewRequest f) ]
  end.

(** How the preview request ends: something in the [try] block threw an
    error with this message (the request failed, the response was not ok and
    the handler threw 'Failed to process file', or its body was not JSON), or
    the preview arrived. *)
Inductive PreviewOutcome :=
| PreviewThrew (msg : jsstring)
| PreviewArrived (preview : PreviewData).

(** [handleFileChange] from the response on, with its [catch] and
    [finally]. *)
Definition handleFileChangeResume (o : PreviewOutcome) : list Effect :=
  match o with
  | PreviewArrived preview =>
      [ SetPreviewData (Some preview);
        SetColumnMappings (fun _ => initialMappings (headers preview));
        SetCurrentStep StepMapping;
        SetIsProcessingFile false ]
  | PreviewThrew msg =>
      [ SetError (orElse msg (lit "Failed to process file"));
        SetFile None;
        SetIsProcessingFile false ]
  end.

(** The select box of a column calls [updateMapping] with a functional
    update of the mappings. *)
Definition handleUpdateMapping (csvColumn' leadField' : jsstring) : list Effect :=
  [ SetColumnMappings (updateMapping csvColumn' leadField') ].

(** [handleImport] up to its [await fetch], in the state it was rendered
    with. *)
Definition handleImport (st : State) : list Effect :=
  match file st with
  | Some f =>
      if truthy (selectedUser st) then
        let validationErrors := validateMappings (columnMappings st) in
        if 0 <? Z.of_nat (length validationErrors)
        then [ SetError (join (lit ". ") validationErrors) ]
        else [ SetIsUploading true;
               SetError [];
               SetImportResult None;
               Fetch (ImportRequest f (selectedUser st) (columnMappings st)) ]
      else [ SetError (lit "Please select a file and user") ]
  | None => [ SetError (lit "Please select a file and user") ]
  end.

(** How the import request ends: an error with this message was thrown (by
    the request, or by the handler for a response that was not ok), or the
    result arrived. *)
Inductive ImportOutcome :=
| ImportThrew (msg : jsstring)
| ImportArrived (data : ImportResult).

(** [handleImport] from the response on. *)
Definition handleImportResume (o : ImportOutcome) : list Effect :=
  match o with
  | ImportArrived data =>
      [ SetImportResult (Some data);
        SetCurrentStep StepImport;
        SetFile None;
        SetSelectedUser [];
        SetPreviewData None;
        SetColumnMappings (fun _ => []);
        ClearFileInput;
        SetIsUploading false ]
  | ImportThrew msg =>
      [ ConsoleError msg;
        SetError (orElse msg (lit "Import failed"));
        SetIsUploading false ]
  end.

(** The state the component starts in: the initial value of each hook. *)
Definition initialState : State :=
  mkState [] [] None None [] false false None [] false StepUpload false.

(** ** Notions the properties below are stated with *)

(** No condition of the chain in [suggestedField] holds of [n]. *)
Definition noRuleMatches (n : jsstring) : bool :=
  negb (has n "name" || has n "company" || has n "plant")
  && negb (has n "contact" && (has n "person" || has n "name"))
  && negb (has n "title")
  && negb (has n "email")
  && negb (has n "phone" && negb (has n "secondary"))
  && negb (has n "phone" && has n "secondary")
  && negb (has n "address")
  && negb (has n "city")
  && negb (has n "state")
  && negb (has n "zip" || has n "postal")
  && negb (has n "note" || has n "desc")
  && negb (has n "type" || has n "industry")
  && negb (has n "status").

(** No condition tested before the two phone rules holds of [n]. *)
Definition reachesPhoneRules (n : jsstring) : bool :=
  negb (has n "name" || has n "company" || has n "plant")
  && negb (has n "contact" && (has n "person" || has n "name"))
  && negb (has n "title")
  && negb (has n "email").

(** What normalisation makes of one code unit: an ASCII capital becomes its
    small letter, a small letter or a digit is kept, the two characters that
    lower-case to an ASCII letter give that letter, and any other unit is
    dropped. *)
Definition normalizedUnit (c : Z) : list Z :=
  if (65 <=? c) && (c <=? 90) then [c + 32]
  else if isLowerAlnum c then [c]
  else if c =? 8490 then [107]
  else if c =? 304 then [105]
  else [].

(** The extension of a file name: the name from its last full stop on, and
    nothing when it has no full stop. *)
Fixpoint extension (s : jsstring) : jsstring :=
  match s with
  | [] => []
  | c :: s' =>
      match extension s' with
      | [] => if c =? 46 then c :: s' else []
      | e => e
      end
  end.

(** A mapping has a source column mapped to the field [f]. *)
Definition mapsTo (cms : list ColumnMapping) (f : jsstring) : Prop :=
  exists m, In m cms /\ leadField m = f.

(** ** The rest of the component *)

(** [setUsers], [setShowModal] and [setShowAllPreview]. *)
Definition setUsers (us : list User) (st : State) : State :=
  mkState us (selectedUser st) (file st) (previewData st) (columnMappings st)
          (isUploading st) (isProcessingFile st) (importResult st)
          (error st) (showModal st) (currentStep st) (showAllPreview st).

Definition setShowModal (b : bool) (st : State) : State :=
  mkState (users st) (selectedUser st) (file st) (previewData st)
          (columnMappings st)
          (isUploading st) (isProcessingFile st) (importResult st)
          (error st) b (currentStep st) (showAllPreview st).

Definition setShowAllPreview (b : bool) (st : State) : State :=
  mkState (users st) (selectedUser st) (file st) (previewData st)
          (columnMappings st)
          (isUploading st) (isProcessingFile st) (importResult st)
          (error st) (showModal st) (currentStep st) b.

(** How the request for the users made on mount ends: the list arrived, or
    something in the [try] block threw. *)
Inductive UsersOutcome :=
| UsersThrew
| UsersArrived (data : list User).

(** [loadUsers] from the response on. *)
Definition loadUsersResume (o : UsersOutcome) (st : State) : State :=
  match o with
  | UsersArrived data => setUsers (filter (fun u => is_active u) data) st
  | UsersThrew => run st [ SetError (lit "Failed to load users") ]
  end.

(** [downloadTemplate] from the response on: when all went well it touches
    the document only, and otherwise it reports the failure. *)
Definition downloadTemplateResume (ok : bool) : list Effect :=
  if ok then [] else [ SetError (lit "Failed to download template") ].

Definition resetImport : list Effect :=
  [ SetCurrentStep StepUpload;
    SetFile None;
    SetPreviewData None;
    SetColumnMappings (fun _ => []);
    SetImportResult None;
    SetError [] ].

(** *** What the component renders *)

(** [arr.slice(0, end)] on an array. *)
Definition sliceTo {A : Type} (arr : list A) (e : Z) : list A :=
  let len := Z.of_nat (length arr) in
  let upto := if e <? 0 then Z.max (len + e) 0 else Z.min e len in
  firstn (Z.to_nat upto) arr.

(** The rows of the preview table. *)
Definition visibleRows (p : PreviewData) (showAll : bool) : list (list jsstring) :=
  sliceTo (rows p) (if showAll then Z.of_nat (length (rows p)) else 3).

(** The number in the note '... and N more rows', when the note is shown. *)
Definition moreRowsNote (p : PreviewData) (showAll : bool) : option Z :=
  if negb showAll && (3 <? Z.of_nat (length (rows p)))
  then Some (Z.of_nat (length (rows p)) - 3)
  else None.

(** The tick or cross beside a required field: [isMapped]. *)
Definition isMapped (cms : list ColumnMapping) (f : ValidationInfo) : bool :=
  existsb (fun m => streq (leadField m) (field f)) cms.

Definition requiredChecklist (cms : list ColumnMapping) : list (jsstring * bool) :=
  map (fun f => (field f, isMapped cms f)) (filter required leadFields).

(** The [disabled] attribute of the button 'Continue to Import'. *)
Definition continueDisabled (cms : list ColumnMapping) : bool :=
  0 <? Z.of_nat (length (validateMappings cms)).

(** The values a column's select box offers: 'Skip this column' and one
    option per field of the registry. *)
Definition optionValues : list jsstring := [] :: map field leadFields.

Definition stepEqb (a b : Step) : bool :=
  match a, b with
  | StepUpload, StepUpload | StepMapping, StepMapping
  | StepImport, StepImport => true
  | _, _ => false
  end.

Definition isSome {A : Type} (o : option A) : bool :=
  match o with Some _ => true | None => false end.

(** Which part of the page is rendered. *)
Definition uploadShown (st : State) : bool :=
  stepEqb (currentStep st) StepUpload.

Definition mappingShown (st : State) : bool :=
  stepEqb (currentStep st) StepMapping && isSome (previewData st).

Definition importShown (st : State) : bool :=
  stepEqb (currentStep st) StepImport && negb (isSome (importResult st)).

Definition resultShown (st : State) : bool :=
  stepEqb (currentStep st) StepImport && isSome (importResult st).

(** *** The component as a transition system *)

(** What can happen to the component: a control of the page is used, or a
    request it made is answered. *)
Inductive Event :=
| UsersLoaded (o : UsersOutcome)
| TemplateDownloaded (ok : bool)
| SelectUser (u : jsstring)
| ChooseFile (f : option File)
| PreviewDone (o : PreviewOutcome)
| EditMapping (index : nat) (value : jsstring)
| TogglePreview
| StartOver
| ContinueToImport
| ClickImport
| BackToMapping
| ImportDone (o : ImportOutcome)
| ImportAnother
| OpenFailures
| CloseFailures.

(** An event can happen in a state: its control is rendered there and not
    disabled, and the value it carries is one the control offers.  An answer
    may come at any time (this allows more runs than the browser does, so
    what holds of every run here holds of every real one). *)
Definition enabled (st : State) (ev : Event) : bool :=
  match ev with
  | UsersLoaded _ | TemplateDownloaded _ | PreviewDone _ | ImportDone _ => true
  | SelectUser u =>
      uploadShown st && arrIncludes ([] :: map email (users st)) u
  | ChooseFile _ => uploadShown st && negb (isProcessingFile st)
  | EditMapping index value =>
      mappingShown st && isSome (nth_error (columnMappings st) index)
      && arrIncludes optionValues value
  | TogglePreview | StartOver => mappingShown st
  | ContinueToImport =>
      mappingShown st && negb (continueDisabled (columnMappings st))
  | ClickImport => importShown st && negb (isUploading st)
  | BackToMapping => importShown st
  | ImportAnother => resultShown st
  | OpenFailures =>
      resultShown st &&
      match importResult st with
      | Some r => (0 <? Z.of_nat (length (failures r)))
      | None => false
      end
  | CloseFailures => showModal st && isSome (importResult st)
  end.

(** The state after an event. *)
Definition react (st : State) (ev : Event) : State :=
  match ev with
  | UsersLoaded o => loadUsersResume o st
  | TemplateDownloaded ok => run st (downloadTemplateResume ok)
  | SelectUser u => run st [ SetSelectedUser u ]
  | ChooseFile f => run st (handleFileChange f)
  | PreviewDone o => run st (handleFileChangeResume o)
  | EditMapping index value =>
      match nth_error (columnMappings st) index with
      | Some mapping => run st (handleUpdateMapping (csvColumn mapping) value)
      | None => st
      end
  | TogglePreview => setShowAllPreview (negb (showAllPreview st)) st
  | StartOver | ImportAnother => run st resetImport
  | ContinueToImport => run st [ SetCurrentStep StepImport ]
  | ClickImport => run st (handleImport st)
  | BackToMapping => run st [ SetCurrentStep StepMapping ]
  | ImportDone o => run st (handleImportResume o)
  | OpenFailures => setShowModal true st
  | CloseFailures => setShowModal false st
  end.

(** The preview and import requests an event sends. *)
Definition sent (st : State) (ev : Event) : list Request :=
  match ev with
  | ChooseFile f => requests (handleFileChange f)
  | ClickImport => requests (handleImport st)
  | _ => []
  end.

(** The states the component can be in. *)
Inductive reachable : State -> Prop :=
| reachable_initial : reachable initialState
| reachable_react (st : State) (ev : Event) :
    reachable st -> enabled st ev = true -> reachable (react st ev).

(** A mapping names fields of the registry only. *)
Definition inRegistry (m : ColumnMapping) : Prop :=
  leadField m = [] \/ In (leadField m) (map field leadFields).

(** The mappings are those of the previewed file's columns. *)
Definition aligned (st : State) : Prop :=
  match previewData st with
  | Some p => map csvColumn (columnMappings st) = headers p
  | None => columnMappings st = []
  end.

(** The first rule of the chain holds of a header. *)
Definition nameRule (header : jsstring) : bool :=
  has (normalizedHeader header) "name"
  || has (normalizedHeader header) "company"
  || has (normalizedHeader header) "plant".

(** ** The trash page ([TrashPage]) *)

Module TrashPage.

Record TrashItem := mkTrashItem {
  id : Z;
  name : jsstring;
  deleted_at : jsstring;
  deleted_by : option Z
}.

Record State := mkState {
  clients : list TrashItem;
  leads : list TrashItem;
  projects : list TrashItem;
  loading : bool;
  error : jsstring
}.

Definition initialState : State := mkState [] [] [] true [].

(** The first argument of [handleRestore] and [handlePurge]. *)
Inductive ItemType := Client | Lead | Project.

Inductive Request :=
| TrashRequest (type : ItemType)
    (* GET /clients/trash, /leads/trash, /projects/trash *)
| RestoreRequest (type : ItemType) (id' : Z)
    (* PUT /{type}s/{id}/restore *)
| PurgeRequest (type : ItemType) (id' : Z).
    (* DELETE /{type}s/{id}/purge *)

Inductive Effect :=
| SetClients (upd : list TrashItem -> list TrashItem)
| SetLeads (upd : list TrashItem -> list TrashItem)
| SetProjects (upd : list TrashItem -> list TrashItem)
| SetLoading (b : bool)
| SetError (e : jsstring)
| Fetch (r : Request)
| Alert (msg : jsstring).

Definition applyEffect (st : State) (e : Effect) : State :=
  match e with
  | SetClients upd =>
      mkState (upd (clients st)) (leads st) (projects st) (loading st) (error st)
  | SetLeads upd =>
      mkState (clients st) (upd (leads st)) (projects st) (loading st) (error st)
  | SetProjects upd =>
      mkState (clients st) (leads st) (upd (projects st)) (loading st) (error st)
  | SetLoading b =>
      mkState (clients st) (leads st) (projects st) b (error st)
  | SetError e' =>
      mkState (clients st) (leads st) (projects st) (loading st) e'
  | Fetch _ | Alert _ => st
  end.

Definition run (st : State) (es : list Effect) : State :=
  fold_left applyEffect es st.

Fixpoint requests (es : list Effect) : list Request :=
  match es with
  | [] => []
  | Fetch r :: es' => r :: requests es'
  | _ :: es' => requests es'
  end.

Fixpoint alerts (es : list Effect) : list jsstring :=
  match es with
  | [] => []
  | Alert m :: es' => m :: alerts es'
  | _ :: es' => alerts es'
  end.

(** [fetchTrash] up to its [await Promise.all]. *)
Definition fetchTrash : list Effect :=
  [ SetLoading true;
    Fetch (TrashRequest Client);
    Fetch (TrashRequest Lead);
    Fetch (TrashRequest Project) ].

(** How far [fetchTrash] gets: one of the three requests fails, or the
    bodies are read one after the other, each of which may fail. *)
Inductive TrashOutcome :=
| RequestFailed
| ClientsUnreadable
| LeadsUnreadable (cs : list TrashItem)
| ProjectsUnreadable (cs ls : list TrashItem)
| TrashArrived (cs ls ps : list TrashItem).

(** [fetchTrash] from the responses on, with its [catch] and [finally]. *)
Definition fetchTrashResume (o : TrashOutcome) : list Effect :=
  match o with
  | RequestFailed | ClientsUnreadable =>
      [ SetError (lit "Failed to load trash."); SetLoading false ]
  | LeadsUnreadable cs =>
      [ SetClients (fun _ => cs);
        SetError (lit "Failed to load trash."); SetLoading false ]
  | ProjectsUnreadable cs ls =>
      [ SetClients (fun _ => cs); SetLeads (fun _ => ls);
        SetError (lit "Failed to load trash."); SetLoading false ]
  | TrashArrived cs ls ps =>
      [ SetClients (fun _ => cs); SetLeads (fun _ => ls);
        SetProjects (fun _ => ps); SetLoading false ]
  end.

(** How a restore or purge request ends: [apiFetch] threw (nothing in the
    handler catches it), or a response came, ok or not. *)
Inductive Reply :=
| NoReply
| Replied (ok : bool).

(** The update of one of the three lists that both handlers make on
    success: [prev.filter(x => x.id !== id)]. *)
Definition dropId (id' : Z) (prev : list TrashItem) : list TrashItem :=
  filter (fun x => negb (id x =? id')) prev.

Definition removeFrom (type : ItemType) (id' : Z) : Effect :=
  match type with
  | Client => SetClients (dropId id')
  | Lead => SetLeads (dropId id')
  | Project => SetProjects (dropId id')
  end.

Definition handleRestore (type : ItemType) (id' : Z) : list Effect :=
  [ Fetch (RestoreRequest type id') ].

Definition handleRestoreResume (type : ItemType) (id' : Z) (r : Reply)
    : list Effect :=
  match r with
  | NoReply => []
  | Replied true => [ removeFrom type id' ]
  | Replied false => [ Alert (lit "Failed to restore.") ]
  end.

(** [confirmed] is the answer to the [confirm] dialog. *)
Definition handlePurge (confirmed : bool) (type : ItemType) (id' : Z)
    : list Effect :=
  if negb confirmed then [] else [ Fetch (PurgeRequest type id') ].

Definition handlePurgeResume (type : ItemType) (id' : Z) (r : Reply)
    : list Effect :=
  match r with
  | NoReply => []
  | Replied true => [ removeFrom type id' ]
  | Replied false => [ Alert (lit "Failed to permanently delete.") ]
  end.

(** Everything that can happen to the page, with what it does. *)
Inductive Event :=
| Mounted
| TrashLoaded (o : TrashOutcome)
| RestoreClicked (type : ItemType) (id' : Z)
| RestoreReplied (type : ItemType) (id' : Z) (r : Reply)
| PurgeClicked (confirmed : bool) (type : ItemType) (id' : Z)
| PurgeReplied (type : ItemType) (id' : Z) (r : Reply).

Definition effectsOf (ev : Event) : list Effect :=
  match ev with
  | Mounted => fetchTrash
  | TrashLoaded o => fetchTrashResume o
  | RestoreClicked type id' => handleRestore type id'
  | RestoreReplied type id' r => handleRestoreResume type id' r
  | PurgeClicked confirmed type id' => handlePurge confirmed type id'
  | PurgeReplied type id' r => handlePurgeResume type id' r
  end.

Definition react (st : State) (ev : Event) : State := run st (effectsOf ev).

(** The list of the page that holds the items of a type. *)
Definition listOf (type : ItemType) (st : State) : list TrashItem :=
  match type with
  | Client => clients st
  | Lead => leads st
  | Project => projects st
  end.

End TrashPage.

(** ** The storage client ([api/storage.ts]) *)

Module Storage.

Inductive Result (A : Type) :=
| Threw (msg : jsstring)
| Returned (a : A).
Arguments Threw {A} msg.
Arguments Returned {A} a.

Inductive Method := GET | POST | DELETE.

Inductive Endpoint :=
| ListEndpoint                 (* /api/storage/list *)
| UploadEndpoint               (* /api/storage/upload *)
| DeleteEndpoint (id : Z)      (* /api/storage/delete/{id} *)
| DownloadEndpoint (id : Z).   (* /api/storage/download/{id} *)

(** A request: where it goes, its Authorization header and the files of
    its form (each under the key 'file'). *)
Record Request := mkRequest {
  method : Method;
  endpoint : Endpoint;
  authorization : jsstring;
  form : list File
}.

Definition authHeaders (token : jsstring) : Result jsstring :=
  if negb (truthy token) then Threw (lit "Not authenticated")
  else Returned (lit "Bearer " ++ token).

(** Each function up to its [await fetch]: the error thrown before the
    request is made, or the request. *)
Definition listFiles (token : jsstring) : Result Request :=
  match authHeaders token with
  | Threw msg => Threw msg
  | Returned h => Returned (mkRequest GET ListEndpoint h [])
  end.

Definition uploadFiles (files : list File) (token : jsstring) : Result Request :=
  let fd := fold_left (fun fd f => fd ++ [f]) files [] in
  match authHeaders token with
  | Threw msg => Threw msg
  | Returned h => Returned (mkRequest POST UploadEndpoint h fd)
  end.

Definition deleteFile (id : Z) (token : jsstring) : Result Request :=
  match authHeaders token with
  | Threw msg => Threw msg
  | Returned h => Returned (mkRequest DELETE (DeleteEndpoint id) h [])
  end.

Definition downloadFile (id : Z) (token : jsstring) : Result Request :=
  match authHeaders token with
  | Threw msg => Threw msg
  | Returned h => Returned (mkRequest GET (DownloadEndpoint id) h [])
  end.

(** How a request ends: [fetch] rejects, or a response comes, ok or not,
    whose body is read or fails to be. *)
Inductive Response (A : Type) :=
| Rejected (msg : jsstring)
| Answered (ok : bool) (body : Result A).
Arguments Rejected {A} msg.
Arguments Answered {A} ok body.

(** The part after [await fetch], the same in the four functions but for
    the message. *)
Definition settle {A : Type} (failure : jsstring) (r : Response A) : Result A :=
  match r with
  | Rejected msg => Threw msg
  | Answered false _ => Threw failure
  | Answered true body => body
  end.

Definition listFilesResume {A : Type} (r : Response A) : Result A :=
  settle (lit "Failed to list files") r.

Definition uploadFilesResume {A : Type} (r : Response A) : Result A :=
  settle (lit "Upload failed") r.

Definition deleteFileResume {A : Type} (r : Response A) : Result A :=
  settle (lit "Delete failed") r.

Definition downloadFileResume {A : Type} (r : Response A) : Result A :=
  settle (lit "Download failed") r.

End Storage.

(** What holds of the state after every event. *)
Definition sound (st : State) : Prop :=
  (currentStep st = StepImport -> importResult st = None ->
   validateMappings (columnMappings st) = []) /\
  aligned st /\
  Forall inRegistry (columnMappings st) /\
  (forall f, file st = Some f -> In (fileExtension f) validTypes) /\
  Forall (fun u => is_active u = true) (users st).

(** A session: a file is chosen, its preview arrives, the user goes on to
    the last step. *)
Definition demoFile : File := mkFile (lit "leads.csv") [].

Definition demoPreview : PreviewData :=
  mkPreviewData [lit "Company"; lit "Town"]
                [[lit "Acme"; lit "Houston"]] 1.

Definition demoSession : list Event :=
  [ UsersLoaded (UsersArrived [mkUser 1 (lit "rep@example.com") true;
                               mkUser 2 (lit "old@example.com") false]);
    SelectUser (lit "rep@example.com");
    ChooseFile (Some demoFile);
    PreviewDone (PreviewArrived demoPreview);
    ContinueToImport ].

(** Unfolding of the state updates of a handler. *)
Ltac state_simpl :=
  cbn [run fold_left applyEffect
       users selectedUser file previewData columnMappings isUploading
       isProcessingFile importResult error showModal currentStep
       showAllPreview setUsers setShowModal setShowAllPreview
       loadUsersResume downloadTemplateResume resetImport
       handleFileChangeResume handleImportResume handleUpdateMapping] in *.

(** Case analysis on the first condition of a chain of conditionals. *)
Ltac chain_step :=
  match goal with
  | |- context [if ?c then _ else _] => destruct c eqn:?
  end.

(** ** Examples *)

Example suggested_company_name :
  suggestMapping (lit "Company Name") = mkColumnMapping (lit "Company Name") (lit "name").
Proof. vm_compute. reflexivity. Qed.

Example suggested_secondary_phone :
  leadField (suggestMapping (lit "Secondary Phone #")) = lit "secondary_phone".
Proof. vm_compute. reflexivity. Qed.

Example validate_empty :
  validateMappings [] = [lit "Missing required fields: name"].
Proof. vm_compute. reflexivity. Qed.

Example extension_of_report :
  extension (lit "leads.2024.CSV") = lit ".CSV".
Proof. vm_compute. reflexivity. Qed.

(** ** Properties of the primitives *)

Lemma streq_eq (a b : jsstring) : streq a b = true <-> a = b.
Proof.
  revert b; induction a as [|x a IH]; intros [|y b]; simpl; split;
    try congruence; try reflexivity.
  - intros H. apply andb_true_iff in H as [Hx Hr].
    apply Z.eqb_eq in Hx. apply IH in Hr. congruence.
  - intros H. injection H as -> ->. rewrite Z.eqb_refl. simpl.
    apply IH. reflexivity.
Qed.

Lemma arrIncludes_In (arr : list jsstring) (x : jsstring) :
  arrIncludes arr x = true <-> In x arr.
Proof.
  unfold arrIncludes. rewrite existsb_exists. split.
  - intros [y [Hy He]]. apply streq_eq in He. subst. exact Hy.
  - intros H. exists x. split; [exact H|]. apply streq_eq. reflexivity.
Qed.

Lemma truthy_nonempty (s : jsstring) : truthy s = true <-> s <> [].
Proof. destruct s; simpl; split; congruence. Qed.

(** ** The mapping validator *)

Lemma requiredFields_In (f : jsstring) :
  In f requiredFields <->
  exists F, In F leadFields /\ required F = true /\ field F = f.
Proof.
  unfold requiredFields. rewrite in_map_iff. split.
  - intros [F [Hf HF]]. apply filter_In in HF as [HF Hr]. eauto.
  - intros [F [HF [Hr Hf]]]. exists F. split; [exact Hf|].
    apply filter_In. auto.
Qed.

Lemma requiredFields_truthy (f : jsstring) :
  In f requiredFields -> f <> [].
Proof.
  intros H. vm_compute in H. destruct H as [<-|[]]. discriminate.
Qed.

Lemma mappedFields_In (cms : list ColumnMapping) (f : jsstring) :
  In f (mappedFields cms) <-> mapsTo cms f /\ f <> [].
Proof.
  unfold mappedFields, mapsTo. rewrite in_map_iff. split.
  - intros [m [Hf Hm]]. apply filter_In in Hm as [Hm Ht].
    apply truthy_nonempty in Ht. subst f. eauto.
  - intros [[m [Hm Hf]] Hne]. exists m. split; [exact Hf|].
    apply filter_In. split; [exact Hm|].
    apply truthy_nonempty. congruence.
Qed.

Lemma missingRequired_In (cms : list ColumnMapping) (f : jsstring) :
  In f (missingRequired cms) <-> In f requiredFields /\ ~ mapsTo cms f.
Proof.
  unfold missingRequired. rewrite filter_In, negb_true_iff.
  split; intros [Hr Hm]; split; try exact Hr.
  - intros Hmap.
    assert (Hin : In f (mappedFields cms)).
    { apply mappedFields_In. split; [exact Hmap|].
      apply requiredFields_truthy. exact Hr. }
    apply arrIncludes_In in Hin. congruence.
  - destruct (arrIncludes (mappedFields cms) f) eqn:E; [|reflexivity].
    apply arrIncludes_In, mappedFields_In in E. tauto.
Qed.

Lemma validateMappings_cases (cms : list ColumnMapping) :
  validateMappings cms =
  match missingRequired cms with
  | [] => []
  | _ :: _ =>
      [lit "Missing required fields: " ++ join (lit ", ") (missingRequired cms)]
  end.
Proof.
  unfold validateMappings. destruct (missingRequired cms); reflexivity.
Qed.

Lemma validateMappings_message_nonempty (cms : list ColumnMapping) (e : jsstring) :
  In e (validateMappings cms) -> e <> [].
Proof.
  rewrite validateMappings_cases. destruct (missingRequired cms); simpl.
  - tauto.
  - intros [<-|[]]. discriminate.
Qed.

(** C1, as stated, fails: with no column mapped to the required field
    [name], the validator's result does not hold the string [name]; it holds
    one message that names it. *)
Lemma validateMappings_does_not_list_names :
  ~ (forall (cms : list ColumnMapping) (F : ValidationInfo),
        In F leadFields -> required F = true -> ~ mapsTo cms (field F) ->
        In (field F) (validateMappings cms)).
Proof.
  intros H.
  specialize (H [] (mkValidationInfo (lit "name") true
                      (lit "Company/Organization name")
                      (Some (lit "Acme Corporation")))).
  assert (Hin : In (lit "name") (validateMappings [])).
  { apply H.
    - left. reflexivity.
    - reflexivity.
    - intros [m [[] _]]. }
  vm_compute in Hin. destruct Hin as [Hin|[]]. discriminate Hin.
Qed.

(** C1, amended: the validator computes exactly the names of the required
    fields that no source column is mapped to; it returns the empty list when
    there is none, and otherwise a list of one message, the text
    'Missing required fields: ' followed by those names joined by ', '. *)
Theorem validateMappings_reports_missing (cms : list ColumnMapping) :
  (forall f, In f (missingRequired cms) <->
             (exists F, In F leadFields /\ required F = true /\ field F = f)
             /\ ~ mapsTo cms f) /\
  ((forall F, In F leadFields -> required F = true -> mapsTo cms (field F)) ->
   validateMappings cms = []) /\
  (forall F, In F leadFields -> required F = true -> ~ mapsTo cms (field F) ->
   In (field F) (missingRequired cms) /\
   validateMappings cms =
     [lit "Missing required fields: " ++ join (lit ", ") (missingRequired cms)]).
Proof.
  split; [|split].
  - intros f. rewrite missingRequired_In, requiredFields_In. reflexivity.
  - intros Hall. rewrite validateMappings_cases.
    destruct (missingRequired cms) as [|f l] eqn:E; [reflexivity|].
    assert (Hf : In f (missingRequired cms)) by (rewrite E; left; reflexivity).
    apply missingRequired_In in Hf as [Hr Hn].
    apply requiredFields_In in Hr as [F [HF [Hr <-]]].
    exfalso. apply Hn. apply Hall; assumption.
  - intros F HF Hr Hn.
    assert (Hf : In (field F) (missingRequired cms)).
    { apply missingRequired_In. split; [|exact Hn].
      apply requiredFields_In. eauto. }
    split; [exact Hf|].
    rewrite validateMappings_cases.
    destruct (missingRequired cms); [destruct Hf | reflexivity].
Qed.

Lemma validateMappings_reports_missing_witness :
  validateMappings [mkColumnMapping (lit "Company") (lit "name")] = [] /\
  validateMappings [] = [lit "Missing required fields: name"].
Proof.
  split.
  - destruct (validateMappings_reports_missing
                [mkColumnMapping (lit "Company") (lit "name")]) as [_ [H _]].
    apply H. intros F HF Hr.
    exists (mkColumnMapping (lit "Company") (lit "name")).
    split; [left; reflexivity|].
    vm_compute in HF.
    repeat (destruct HF as [<-|HF]; [first [reflexivity | discriminate Hr]|]).
    destruct HF.
  - destruct (validateMappings_reports_missing []) as [_ [_ H]].
    destruct (H (mkValidationInfo (lit "name") true
                   (lit "Company/Organization name")
                   (Some (lit "Acme Corporation")))) as [_ Hv].
    + left. reflexivity.
    + reflexivity.
    + intros [m [[] _]].
    + rewrite Hv. vm_compute. reflexivity.
Defined.

(** ** Normalisation of headers *)

Lemma filter_lowerUnit (c : Z) :
  filter isLowerAlnum (lowerUnit c) = normalizedUnit c.
Proof.
  unfold lowerUnit, normalizedUnit.
  destruct ((65 <=? c) && (c <=? 90)) eqn:Hup.
  - apply andb_true_iff in Hup as [H1 H2].
    apply Z.leb_le in H1, H2.
    simpl. unfold isLowerAlnum.
    replace (97 <=? c + 32) with true by (symmetry; apply Z.leb_le; lia).
    replace (c + 32 <=? 122) with true by (symmetry; apply Z.leb_le; lia).
    reflexivity.
  - destruct (isLowerAlnum c) eqn:Hal.
    + assert (c <> 8490 /\ c <> 304) as [H1 H2].
      { unfold isLowerAlnum in Hal.
        apply orb_true_iff in Hal as [Hal|Hal];
          apply andb_true_iff in Hal as [Ha Hb];
          apply Z.leb_le in Ha, Hb; lia. }
      apply Z.eqb_neq in H1, H2. rewrite H1, H2. simpl. rewrite Hal. reflexivity.
    + destruct (Z.eqb_spec c 8490) as [->|_]; [reflexivity|].
      destruct (Z.eqb_spec c 304) as [->|_]; [reflexivity|].
      simpl. rewrite Hal. reflexivity.
Qed.

Lemma normalizedHeader_flat_map (header : jsstring) :
  normalizedHeader header = flat_map normalizedUnit header.
Proof.
  unfold normalizedHeader, stripNonAlnum, toLowerCase.
  induction header as [|c s IH]; [reflexivity|].
  simpl. rewrite filter_app, IH, filter_lowerUnit. reflexivity.
Qed.

Lemma isLowerAlnum_range (c : Z) :
  isLowerAlnum c = true <-> (97 <= c <= 122 \/ 48 <= c <= 57).
Proof.
  unfold isLowerAlnum.
  rewrite orb_true_iff, !andb_true_iff, !Z.leb_le. reflexivity.
Qed.

Lemma lowerUnit_no_capital (c : Z) :
  Forall (fun d => ~ (65 <= d <= 90)) (lowerUnit c).
Proof.
  unfold lowerUnit.
  destruct ((65 <=? c) && (c <=? 90)) eqn:Hup.
  - apply andb_true_iff in Hup as [H1 H2]. apply Z.leb_le in H1, H2.
    repeat constructor. lia.
  - destruct (Z.eqb_spec c 8490); [repeat constructor; lia|].
    destruct (Z.eqb_spec c 304); [repeat constructor; lia|].
    repeat constructor. intros [H1 H2].
    apply Z.leb_le in H1, H2. rewrite H1, H2 in Hup. discriminate.
Qed.

(** C7: the normalised header is the lower-cased header with every code
    unit outside [a-z0-9] removed (so it holds small ASCII letters and digits
    only, an ASCII capital having become its small letter), and the field
    proposed for a header is computed from this normalised form. *)
Theorem normalizedHeader_lowercases_and_strips (header : jsstring) :
  normalizedHeader header = filter isLowerAlnum (toLowerCase header) /\
  Forall (fun c => ~ (65 <= c <= 90)) (toLowerCase header) /\
  Forall (fun c => 97 <= c <= 122 \/ 48 <= c <= 57) (normalizedHeader header) /\
  normalizedHeader header = flat_map normalizedUnit header /\
  leadField (suggestMapping header) = suggestedField (normalizedHeader header).
Proof.
  split; [reflexivity|]. split; [|split; [|split]].
  - unfold toLowerCase. induction header as [|c s IH]; simpl.
    + constructor.
    + apply Forall_app. split; [apply lowerUnit_no_capital | exact IH].
  - unfold normalizedHeader, stripNonAlnum. apply Forall_forall.
    intros c Hc. apply filter_In in Hc as [_ Hc].
    apply isLowerAlnum_range. exact Hc.
  - apply normalizedHeader_flat_map.
  - reflexivity.
Qed.

Example normalized_company_name :
  normalizedHeader (lit "Company_Name (2nd)") = lit "companyname2nd".
Proof. vm_compute. reflexivity. Qed.

(** ** The rule chain *)

Lemma suggestedField_registry (n : jsstring) :
  suggestedField n = [] \/ In (suggestedField n) (map field leadFields).
Proof.
  unfold suggestedField.
  repeat (chain_step; [right; vm_compute; tauto|]).
  left. reflexivity.
Qed.

Lemma suggestedField_empty_iff (n : jsstring) :
  suggestedField n = [] <-> noRuleMatches n = true.
Proof.
  unfold suggestedField, noRuleMatches.
  repeat (chain_step;
          [split; intros HH;
             [vm_compute in HH | cbn [negb andb] in HH]; discriminate HH|]).
  split; reflexivity.
Qed.

Lemma initialMappings_nth (hs : list jsstring) (i : nat) :
  nth_error (initialMappings hs) i = option_map suggestMapping (nth_error hs i).
Proof. unfold initialMappings. apply nth_error_map. Qed.

Lemma columnMappings_after_preview (st : State) (p : PreviewData) :
  columnMappings (run st (handleFileChangeResume (PreviewArrived p))) =
  initialMappings (headers p).
Proof. reflexivity. Qed.

(** C2, as stated, fails: the normalised form of the header
    'Company Phone' contains 'phone' and not 'secondary', and the field
    proposed for it is [name], the first rule of the chain, not [phone]. *)
Lemma phone_header_gets_name :
  ~ (forall h : jsstring,
        let n := normalizedHeader h in
        (has n "company" = true \/ has n "plant" = true ->
         leadField (suggestMapping h) = lit "name") /\
        (has n "phone" = true /\ has n "secondary" = true ->
         leadField (suggestMapping h) = lit "secondary_phone") /\
        (has n "phone" = true /\ has n "secondary" = false ->
         leadField (suggestMapping h) = lit "phone")).
Proof.
  intros H. destruct (H (lit "Company Phone")) as [_ [_ Hphone]].
  assert (E : leadField (suggestMapping (lit "Company Phone")) = lit "phone").
  { apply Hphone. split; vm_compute; reflexivity. }
  vm_compute in E. discriminate E.
Qed.

(** C2, amended: a header whose normalised form contains 'company' or
    'plant' is given the field [name]; one that no earlier rule of the chain
    claims (it contains none of 'name', 'company', 'plant', 'title', 'email',
    and not both 'contact' and 'person') is given [secondary_phone] when it
    contains both 'phone' and 'secondary', and [phone] when it contains
    'phone' and not 'secondary'.  The conditions of the two phone rules
    exclude each other, so neither can shadow the other. *)
Theorem suggestedField_name_and_phone_rules (h : jsstring) :
  let n := normalizedHeader h in
  (has n "company" = true \/ has n "plant" = true ->
   leadField (suggestMapping h) = lit "name") /\
  (reachesPhoneRules n = true ->
   has n "phone" = true -> has n "secondary" = true ->
   leadField (suggestMapping h) = lit "secondary_phone") /\
  (reachesPhoneRules n = true ->
   has n "phone" = true -> has n "secondary" = false ->
   leadField (suggestMapping h) = lit "phone") /\
  (has n "phone" && negb (has n "secondary"))
    && (has n "phone" && has n "secondary") = false.
Proof.
  intros n. unfold suggestMapping. cbn [leadField]. fold n.
  unfold suggestedField, reachesPhoneRules.
  split; [|split; [|split]].
  - intros [Hc|Hp].
    + rewrite Hc, orb_true_r. reflexivity.
    + rewrite Hp, orb_true_r. reflexivity.
  - intros Hr Hp Hs.
    apply andb_true_iff in Hr as [Hr H4].
    apply andb_true_iff in Hr as [Hr H3].
    apply andb_true_iff in Hr as [H1 H2].
    apply negb_true_iff in H1, H2, H3, H4.
    rewrite H1, H2, H3, H4, Hp, Hs. reflexivity.
  - intros Hr Hp Hs.
    apply andb_true_iff in Hr as [Hr H4].
    apply andb_true_iff in Hr as [Hr H3].
    apply andb_true_iff in Hr as [H1 H2].
    apply negb_true_iff in H1, H2, H3, H4.
    rewrite H1, H2, H3, H4, Hp, Hs. reflexivity.
  - destruct (has n "phone"), (has n "secondary"); reflexivity.
Qed.

Lemma suggestedField_name_and_phone_rules_witness :
  leadField (suggestMapping (lit "Plant")) = lit "name" /\
  leadField (suggestMapping (lit "Secondary Phone")) = lit "secondary_phone" /\
  leadField (suggestMapping (lit "Phone #")) = lit "phone".
Proof.
  split; [|split].
  - destruct (suggestedField_name_and_phone_rules (lit "Plant")) as [H _].
    apply H. right. vm_compute. reflexivity.
  - destruct (suggestedField_name_and_phone_rules (lit "Secondary Phone"))
      as [_ [H _]].
    apply H; vm_compute; reflexivity.
  - destruct (suggestedField_name_and_phone_rules (lit "Phone #"))
      as [_ [_ [H _]]].
    apply H; vm_compute; reflexivity.
Defined.

Example suggested_contact_name :
  leadField (suggestMapping (lit "Contact Name")) = lit "name".
Proof. vm_compute. reflexivity. Qed.

Example suggested_company_secondary_phone :
  leadField (suggestMapping (lit "Company Secondary Phone")) = lit "name".
Proof. vm_compute. reflexivity. Qed.

(** C3: inference maps every list of headers to a list of mappings of the
    same length, whose source columns are the headers themselves, in order;
    the entry at each position is the suggestion for the header at that
    position, and this list is what the component stores when a preview
    arrives. *)
Theorem initialMappings_one_per_header (hs : list jsstring) :
  length (initialMappings hs) = length hs /\
  map csvColumn (initialMappings hs) = hs /\
  (forall i, nth_error (initialMappings hs) i =
             option_map suggestMapping (nth_error hs i)) /\
  (forall i, option_map csvColumn (nth_error (initialMappings hs) i) =
             nth_error hs i) /\
  (forall st rs total,
     columnMappings
       (run st (handleFileChangeResume
                  (PreviewArrived (mkPreviewData hs rs total)))) =
     initialMappings hs).
Proof.
  split; [|split; [|split; [|split]]].
  - unfold initialMappings. apply length_map.
  - unfold initialMappings. rewrite map_map. simpl. apply map_id.
  - apply initialMappings_nth.
  - intros i. rewrite initialMappings_nth.
    destruct (nth_error hs i); reflexivity.
  - reflexivity.
Qed.

(** C6: a header that matches no rule of the chain still gets its entry,
    at its own position, with its source column kept and an empty target
    field; and the target field is empty only for such headers. *)
Theorem unmatched_header_is_skipped (h : jsstring) :
  noRuleMatches (normalizedHeader h) = true ->
  suggestMapping h = mkColumnMapping h [] /\
  (forall hs i, nth_error hs i = Some h ->
                nth_error (initialMappings hs) i = Some (mkColumnMapping h [])) /\
  (forall h', leadField (suggestMapping h') = [] ->
              noRuleMatches (normalizedHeader h') = true).
Proof.
  intros Hno.
  assert (E : suggestMapping h = mkColumnMapping h []).
  { unfold suggestMapping. f_equal. apply suggestedField_empty_iff. exact Hno. }
  split; [exact E|]. split.
  - intros hs i Hi. rewrite initialMappings_nth, Hi. simpl. rewrite E. reflexivity.
  - intros h' H'. apply suggestedField_empty_iff. exact H'.
Qed.

Lemma unmatched_header_is_skipped_witness :
  initialMappings [lit "Company"; lit "Fax No."; lit "E-mail"] =
  [ mkColumnMapping (lit "Company") (lit "name");
    mkColumnMapping (lit "Fax No.") [];
    mkColumnMapping (lit "E-mail") (lit "email") ]
  /\ suggestMapping (lit "Fax No.") = mkColumnMapping (lit "Fax No.") [].
Proof.
  split.
  - vm_compute. reflexivity.
  - apply (proj1 (unmatched_header_is_skipped (lit "Fax No.")
                    ltac:(vm_compute; reflexivity))).
Defined.

(** C8: the target field stored for a header is a function of the header's
    text alone: whatever the state of the component, the other headers, the
    rows and the row count of the preview, and the position of the header,
    two occurrences of the same header get the same target field. *)
Theorem inference_depends_on_header_only
    (st1 st2 : State) (p1 p2 : PreviewData) (i j : nat) (h : jsstring) :
  nth_error (headers p1) i = Some h ->
  nth_error (headers p2) j = Some h ->
  option_map leadField
    (nth_error (columnMappings
                  (run st1 (handleFileChangeResume (PreviewArrived p1)))) i) =
  Some (suggestedField (normalizedHeader h)) /\
  option_map leadField
    (nth_error (columnMappings
                  (run st2 (handleFileChangeResume (PreviewArrived p2)))) j) =
  Some (suggestedField (normalizedHeader h)).
Proof.
  intros H1 H2. rewrite !columnMappings_after_preview, !initialMappings_nth.
  rewrite H1, H2. split; reflexivity.
Qed.

(** C9: the target field proposed for a header is empty or the name of one
    of the fifteen fields of the registry. *)
Theorem suggestedField_in_registry (h : jsstring) :
  length leadFields = 15%nat /\
  (leadField (suggestMapping h) = [] \/
   In (leadField (suggestMapping h)) (map field leadFields)).
Proof.
  split; [reflexivity|]. apply suggestedField_registry.
Qed.

Lemma inference_depends_on_header_only_witness :
  option_map leadField
    (nth_error
       (columnMappings
          (run initialState
             (handleFileChangeResume
                (PreviewArrived
                   (mkPreviewData [lit "Zip Code"; lit "City"] [] 0))))) 0) =
  Some (lit "zip") /\
  option_map leadField
    (nth_error
       (columnMappings
          (run (applyEffect initialState (SetError (lit "Failed to load users")))
             (handleFileChangeResume
                (PreviewArrived
                   (mkPreviewData [lit "City"; lit "State"; lit "Zip Code"]
                                  [[lit "Houston"; lit "TX"; lit "77001"]] 1)))))
       2) =
  Some (lit "zip").
Proof.
  apply (inference_depends_on_header_only
           initialState
           (applyEffect initialState (SetError (lit "Failed to load users")))
           (mkPreviewData [lit "Zip Code"; lit "City"] [] 0)
           (mkPreviewData [lit "City"; lit "State"; lit "Zip Code"]
                          [[lit "Houston"; lit "TX"; lit "77001"]] 1)
           0%nat 2%nat (lit "Zip Code")); reflexivity.
Defined.

(** ** The mapping editor *)

Lemma updateMapping_nth (c f : jsstring) (prev : list ColumnMapping) (i : nat) :
  nth_error (updateMapping c f prev) i =
  option_map (fun m => if streq (csvColumn m) c
                       then mkColumnMapping (csvColumn m) f else m)
             (nth_error prev i).
Proof. unfold updateMapping. apply nth_error_map. Qed.

(** C10: [updateMapping] keeps the length and the order of the mappings and
    the source column of every entry; at each position, an entry whose source
    column is the given one gets the given target field (every such entry,
    when a header occurs more than once), and any other entry is left as it
    was.  The handler stores that list and changes nothing else in the
    state. *)
Theorem updateMapping_frame (c f : jsstring) (prev : list ColumnMapping) :
  length (updateMapping c f prev) = length prev /\
  map csvColumn (updateMapping c f prev) = map csvColumn prev /\
  (forall i m, nth_error prev i = Some m ->
     exists m', nth_error (updateMapping c f prev) i = Some m' /\
                csvColumn m' = csvColumn m /\
                (csvColumn m = c -> leadField m' = f) /\
                (csvColumn m <> c -> m' = m)) /\
  (forall st, run st (handleUpdateMapping c f) =
              applyEffect st
                (SetColumnMappings
                   (fun _ => updateMapping c f (columnMappings st)))).
Proof.
  split; [|split; [|split]].
  - unfold updateMapping. apply length_map.
  - unfold updateMapping. rewrite map_map. apply map_ext.
    intros m. destruct (streq (csvColumn m) c); reflexivity.
  - intros i m Hi. rewrite updateMapping_nth, Hi. simpl.
    destruct (streq (csvColumn m) c) eqn:E.
    + apply streq_eq in E. eexists. split; [reflexivity|]. simpl.
      split; [reflexivity|]. split; [reflexivity|]. congruence.
    + exists m. split; [reflexivity|]. split; [reflexivity|].
      split; [|reflexivity].
      intros Hc. apply streq_eq in Hc. congruence.
  - reflexivity.
Qed.

Example updateMapping_shared_header :
  updateMapping (lit "Phone") (lit "secondary_phone")
    [ mkColumnMapping (lit "Phone") (lit "phone");
      mkColumnMapping (lit "Name") (lit "name");
      mkColumnMapping (lit "Phone") [] ] =
  [ mkColumnMapping (lit "Phone") (lit "secondary_phone");
    mkColumnMapping (lit "Name") (lit "name");
    mkColumnMapping (lit "Phone") (lit "secondary_phone") ].
Proof. vm_compute. reflexivity. Qed.

Lemma updateMapping_frame_witness :
  exists m',
    nth_error
      (updateMapping (lit "Phone") (lit "secondary_phone")
         [ mkColumnMapping (lit "Phone") (lit "phone");
           mkColumnMapping (lit "Name") (lit "name");
           mkColumnMapping (lit "Phone") [] ]) 2 = Some m' /\
    csvColumn m' = lit "Phone" /\
    leadField m' = lit "secondary_phone".
Proof.
  destruct (updateMapping_frame (lit "Phone") (lit "secondary_phone")
              [ mkColumnMapping (lit "Phone") (lit "phone");
                mkColumnMapping (lit "Name") (lit "name");
                mkColumnMapping (lit "Phone") [] ])
    as [_ [_ [H _]]].
  destruct (H 2%nat (mkColumnMapping (lit "Phone") []) eq_refl)
    as [m' [Hn [Hc [Hset _]]]].
  exists m'. split; [exact Hn|]. split; [exact Hc|].
  apply Hset. reflexivity.
Defined.

(** ** The import gate *)

Lemma requests_handleImport (st : State) (r : Request) :
  In r (requests (handleImport st)) ->
  validateMappings (columnMappings st) = [].
Proof.
  unfold handleImport.
  destruct (file st) as [f|]; [|intros []].
  destruct (truthy (selectedUser st)); [|intros []].
  destruct (validateMappings (columnMappings st)) as [|e l]; [reflexivity|].
  intros [].
Qed.

(** C4: in a state whose mappings the validator rejects, [handleImport]
    does one thing, setting a non-empty error message: it sends no request,
    so no import starts, and the rest of the state stays as it was.  A
    request is sent only from a state whose mappings pass validation. *)
Theorem handleImport_stops_on_invalid_mapping (st : State) :
  validateMappings (columnMappings st) <> [] ->
  requests (handleImport st) = [] /\
  (exists msg, msg <> [] /\ handleImport st = [SetError msg]) /\
  error (run st (handleImport st)) <> [] /\
  isUploading (run st (handleImport st)) = isUploading st /\
  columnMappings (run st (handleImport st)) = columnMappings st /\
  file (run st (handleImport st)) = file st /\
  (forall st' r, In r (requests (handleImport st')) ->
                 validateMappings (columnMappings st') = []).
Proof.
  intros Hinvalid.
  assert (Hmsg : exists msg, msg <> [] /\ handleImport st = [SetError msg]).
  { unfold handleImport.
    destruct (file st) as [f|];
      [|eexists; split; [|reflexivity]; vm_compute; discriminate].
    destruct (truthy (selectedUser st));
      [|eexists; split; [|reflexivity]; vm_compute; discriminate].
    pose proof (validateMappings_message_nonempty (columnMappings st)) as Hne.
    rewrite validateMappings_cases in *.
    destruct (missingRequired (columnMappings st)) as [|x l];
      [contradiction Hinvalid; reflexivity|].
    eexists. split; [|reflexivity]. simpl join.
    apply Hne. left. reflexivity. }
  destruct Hmsg as [msg [Hne Heq]].
  rewrite Heq. repeat split; eauto.
  apply requests_handleImport.
Qed.

Lemma handleImport_stops_on_invalid_mapping_witness :
  let st := mkState [] (lit "rep@example.com")
                    (Some (mkFile (lit "leads.csv") []))
                    None
                    [mkColumnMapping (lit "Telephone") (lit "phone")]
                    false false None [] false StepMapping false in
  requests (handleImport st) = [] /\
  error (run st (handleImport st)) <> [].
Proof.
  intros st.
  destruct (handleImport_stops_on_invalid_mapping st) as [H1 [_ [H2 _]]].
  - vm_compute. discriminate.
  - split; [exact H1 | exact H2].
Defined.

Example handleImport_sends_valid_mapping :
  requests
    (handleImport
       (mkState [] (lit "rep@example.com")
                (Some (mkFile (lit "leads.csv") []))
                None
                [mkColumnMapping (lit "Company") (lit "name")]
                false false None [] false StepMapping false)) =
  [ ImportRequest (mkFile (lit "leads.csv") []) (lit "rep@example.com")
                  [mkColumnMapping (lit "Company") (lit "name")] ].
Proof. vm_compute. reflexivity. Qed.

(** ** The file-type check *)

Lemma startsWith_nil (s : jsstring) : startsWith s [] = true.
Proof. destruct s; reflexivity. Qed.

(** Where [lastIndexOf] finds a one-unit string. *)
Lemma lastIndexOfFrom_unit (c : Z) (s : jsstring) :
  forall i, 0 <= i ->
    (lastIndexOfFrom i s [c] = -1 /\ ~ In c s) \/
    (exists pre suf, s = pre ++ c :: suf /\ ~ In c suf /\
                     lastIndexOfFrom i s [c] = i + Z.of_nat (length pre)).
Proof.
  induction s as [|x s IH]; intros i Hi.
  - left. split; [reflexivity|]. intros [].
  - cbn [lastIndexOfFrom].
    destruct (IH (i + 1) ltac:(lia)) as [[Hr Hn]|[pre [suf [Hs [Hn Hr]]]]].
    + rewrite Hr. cbn [Z.leb Z.compare startsWith].
      rewrite startsWith_nil, andb_true_r.
      destruct (Z.eqb_spec x c) as [->|Hx].
      * right. exists [], s. split; [reflexivity|]. split; [exact Hn|].
        simpl. lia.
      * left. split; [reflexivity|]. intros [E|E]; [congruence|tauto].
    + right. exists (x :: pre), suf. rewrite Hr.
      replace (0 <=? i + 1 + Z.of_nat (length pre)) with true
        by (symmetry; apply Z.leb_le; lia).
      split; [rewrite Hs; reflexivity|]. split; [exact Hn|].
      cbn [length]. lia.
Qed.

Lemma extension_no_stop (s : jsstring) : ~ In 46 s -> extension s = [].
Proof.
  induction s as [|x s IH]; intros Hn; [reflexivity|].
  cbn [extension]. rewrite IH by (intros H; apply Hn; right; exact H).
  destruct (Z.eqb_spec x 46) as [->|_]; [|reflexivity].
  exfalso. apply Hn. left. reflexivity.
Qed.

Lemma extension_last_stop (pre suf : jsstring) :
  ~ In 46 suf -> extension (pre ++ 46 :: suf) = 46 :: suf.
Proof.
  intros Hn. induction pre as [|x pre IH].
  - cbn [app extension]. rewrite extension_no_stop by exact Hn. reflexivity.
  - cbn [app extension]. cbn [app] in IH. rewrite IH. reflexivity.
Qed.

Lemma lowerUnit_stop (c : Z) : In 46 (lowerUnit c) -> c = 46.
Proof.
  unfold lowerUnit.
  destruct ((65 <=? c) && (c <=? 90)) eqn:Hup.
  - apply andb_true_iff in Hup as [H1 H2]. apply Z.leb_le in H1, H2.
    intros [H|[]]. lia.
  - destruct (Z.eqb_spec c 8490); [intros [H|[]]; lia|].
    destruct (Z.eqb_spec c 304); [intros [H|[H|[]]]; lia|].
    intros [H|[]]. lia.
Qed.

Lemma toLowerCase_stop (s : jsstring) : In 46 (toLowerCase s) -> In 46 s.
Proof.
  unfold toLowerCase. intros H. apply in_flat_map in H as [c [Hc H]].
  apply lowerUnit_stop in H. subst c. exact Hc.
Qed.

Lemma toLowerCase_length (s : jsstring) :
  (length s <= length (toLowerCase s))%nat.
Proof.
  unfold toLowerCase. induction s as [|c s IH]; [reflexivity|].
  cbn [flat_map]. rewrite length_app. cbn [length].
  assert (1 <= length (lowerUnit c))%nat; [|lia].
  unfold lowerUnit.
  destruct ((65 <=? c) && (c <=? 90)); [simpl; lia|].
  destruct (c =? 8490); [simpl; lia|].
  destruct (c =? 304); simpl; lia.
Qed.

Lemma In_slice (x : Z) (s : jsstring) (k : Z) : In x (slice s k) -> In x s.
Proof.
  unfold slice. intros H.
  rewrite <- (firstn_skipn
                (Z.to_nat (if k <? 0
                           then Z.max (Z.of_nat (length s) + k) 0
                           else Z.min k (Z.of_nat (length s)))) s).
  apply in_or_app. right. exact H.
Qed.

Lemma slice_app_within (a b : jsstring) (k : nat) :
  (k <= length a)%nat ->
  slice (a ++ b) (Z.of_nat k) = skipn k a ++ b.
Proof.
  intros Hk. unfold slice.
  replace (Z.of_nat k <? 0) with false by (symmetry; apply Z.ltb_ge; lia).
  rewrite length_app.
  replace (Z.to_nat (Z.min (Z.of_nat k) (Z.of_nat (length a + length b))))
    with k by lia.
  rewrite skipn_app.
  replace (k - length a)%nat with 0%nat by lia. reflexivity.
Qed.

(** An accepted extension has its only full stop in front. *)
Lemma accepted_type_one_stop (t : jsstring) (a : Z) (x y : jsstring) :
  In t validTypes -> t = a :: x ++ 46 :: y -> False.
Proof.
  assert (Hin : In 46 (x ++ 46 :: y)) by apply in_elt.
  intros [<-|[<-|[]]] E; injection E as _ E;
    rewrite <- E in Hin; simpl in Hin; intuition discriminate.
Qed.

(** The extension the handler computes on the lower-cased name is, whenever
    it is one of the accepted ones, the lower-cased extension of the name. *)
Lemma fileExtension_accepted (f : File) :
  In (fileExtension f) validTypes ->
  fileExtension f = toLowerCase (extension (name f)).
Proof.
  intros Hin.
  assert (Hstop : In 46 (fileExtension f)).
  { destruct Hin as [<-|[<-|[]]]; left; reflexivity. }
  unfold fileExtension, lastIndexOf in *.
  change (lit ".") with [46] in *.
  destruct (lastIndexOfFrom_unit 46 (name f) 0 ltac:(lia))
    as [[_ Hn]|[pre [suf [Hs [Hn Hr]]]]].
  - exfalso. apply Hn. apply toLowerCase_stop. eapply In_slice. exact Hstop.
  - rewrite Hr, Hs in *. clear Hr Hs Hstop.
    rewrite extension_last_stop by exact Hn.
    unfold toLowerCase in *. rewrite flat_map_app in *.
    change (0 + Z.of_nat (length pre)) with (Z.of_nat (length pre)) in *.
    rewrite slice_app_within in * by apply toLowerCase_length.
    destruct (skipn (length pre) (flat_map lowerUnit pre)) as [|a x];
      [reflexivity|].
    exfalso.
    change (flat_map lowerUnit (46 :: suf))
      with (46 :: flat_map lowerUnit suf) in Hin.
    eapply accepted_type_one_stop; [exact Hin | reflexivity].
Qed.

(** C5: a file whose lower-cased extension is neither .csv nor .xlsx is
    turned down: the handler sets the error message, clears the selected
    file and sends no request.  A preview is requested only for a file whose
    lower-cased extension is one of the two. *)
Theorem handleFileChange_rejects_other_extensions (f : File) (st : State) :
  (~ In (toLowerCase (extension (name f))) validTypes ->
   handleFileChange (Some f) =
     [ SetError (lit "Please upload a CSV or Excel (.xlsx) file");
       SetFile None ] /\
   requests (handleFileChange (Some f)) = [] /\
   error (run st (handleFileChange (Some f))) =
     lit "Please upload a CSV or Excel (.xlsx) file" /\
   file (run st (handleFileChange (Some f))) = None) /\
  (forall r, In r (requests (handleFileChange (Some f))) ->
             In (toLowerCase (extension (name f))) validTypes) /\
  validTypes = [lit ".csv"; lit ".xlsx"].
Proof.
  assert (Hacc : arrIncludes validTypes (fileExtension f) = true ->
                 In (toLowerCase (extension (name f))) validTypes).
  { intros H. apply arrIncludes_In in H.
    rewrite <- (fileExtension_accepted f H). exact H. }
  split; [|split; [|reflexivity]].
  - intros Hext. unfold handleFileChange.
    destruct (arrIncludes validTypes (fileExtension f)) eqn:E.
    + exfalso. apply Hext. apply Hacc. reflexivity.
    + cbn [negb]. repeat split.
  - intros r. unfold handleFileChange.
    destruct (arrIncludes validTypes (fileExtension f)) eqn:E.
    + intros _. apply Hacc. reflexivity.
    + intros [].
Qed.

Lemma handleFileChange_rejects_other_extensions_witness :
  let f := mkFile (lit "leads.csv.PDF") [] in
  requests (handleFileChange (Some f)) = [] /\
  error (run initialState (handleFileChange (Some f))) =
    lit "Please upload a CSV or Excel (.xlsx) file" /\
  file (run initialState (handleFileChange (Some f))) = None.
Proof.
  intros f.
  destruct (handleFileChange_rejects_other_extensions f initialState)
    as [H _].
  destruct H as [_ [H1 [H2 H3]]].
  - vm_compute. intuition discriminate.
  - split; [exact H1|]. split; [exact H2 | exact H3].
Defined.

Example handleFileChange_accepts_upper_case :
  handleFileChange (Some (mkFile (lit "Leads 2024.XLSX") [])) =
  [ SetFile (Some (mkFile (lit "Leads 2024.XLSX") []));
    SetError [];
    SetIsProcessingFile true;
    Fetch (PreviewRequest (mkFile (lit "Leads 2024.XLSX") [])) ].
Proof. vm_compute. reflexivity. Qed.

Example handleFileChange_no_extension :
  handleFileChange (Some (mkFile (lit "csv") [])) =
  [ SetError (lit "Please upload a CSV or Excel (.xlsx) file"); SetFile None ].
Proof. vm_compute. reflexivity. Qed.

(** ** More on the validator: what the page shows *)

Lemma missingRequired_name (cms : list ColumnMapping) :
  missingRequired cms =
  if arrIncludes (mappedFields cms) (lit "name") then [] else [lit "name"].
Proof.
  unfold missingRequired. change requiredFields with [lit "name"].
  cbn [filter]. destruct (arrIncludes (mappedFields cms) (lit "name")); reflexivity.
Qed.

Lemma validateMappings_name (cms : list ColumnMapping) :
  validateMappings cms = [] <-> mapsTo cms (lit "name").
Proof.
  rewrite validateMappings_cases, missingRequired_name.
  destruct (arrIncludes (mappedFields cms) (lit "name")) eqn:E.
  - apply arrIncludes_In, mappedFields_In in E. tauto.
  - split; [discriminate|]. intros Hm. exfalso.
    assert (Hin : In (lit "name") (mappedFields cms)).
    { apply mappedFields_In. split; [exact Hm | discriminate]. }
    apply arrIncludes_In in Hin. congruence.
Qed.

Lemma isMapped_mapsTo (cms : list ColumnMapping) (F : ValidationInfo) :
  isMapped cms F = true <-> mapsTo cms (field F).
Proof.
  unfold isMapped, mapsTo. rewrite existsb_exists.
  split; intros [m [Hm E]]; exists m; split; try exact Hm; apply streq_eq; exact E.
Qed.

Lemma continueDisabled_false (cms : list ColumnMapping) :
  continueDisabled cms = false <-> validateMappings cms = [].
Proof.
  unfold continueDisabled. destruct (validateMappings cms) as [|e l].
  - split; reflexivity.
  - split; [|discriminate]. intros H. apply Z.ltb_ge in H.
    cbn [length] in H. lia.
Qed.

(** X1: the three things the mapping step shows about required fields
    agree: the button 'Continue to Import' is enabled exactly when the
    validator returns no error, exactly when every line of the required-field
    checklist is ticked, and exactly when some column is mapped to [name]. *)
Theorem required_checklist_agrees_with_validator (cms : list ColumnMapping) :
  (continueDisabled cms = false <-> validateMappings cms = []) /\
  (validateMappings cms = [] <->
   Forall (fun line => snd line = true) (requiredChecklist cms)) /\
  (validateMappings cms = [] <->
   exists m, In m cms /\ leadField m = lit "name").
Proof.
  split; [apply continueDisabled_false|]. split; [|apply validateMappings_name].
  rewrite validateMappings_name. unfold requiredChecklist.
  change (filter required leadFields)
    with [mkValidationInfo (lit "name") true (lit "Company/Organization name")
            (Some (lit "Acme Corporation"))].
  cbn [map]. split.
  - intros Hm. constructor; [|constructor]. cbn [snd].
    apply isMapped_mapsTo. exact Hm.
  - intros H. inversion H as [|x l Hx _]; subst. cbn [snd] in Hx.
    apply isMapped_mapsTo in Hx. exact Hx.
Qed.

(** ** More on inference *)

Lemma suggestedField_name_iff (n : jsstring) :
  suggestedField n = lit "name" <->
  has n "name" || has n "company" || has n "plant" = true.
Proof.
  unfold suggestedField.
  chain_step; [split; reflexivity|].
  split; [|discriminate]. intros HH. exfalso. revert HH.
  repeat (chain_step; [intros HH; vm_compute in HH; discriminate HH|]).
  intros HH; vm_compute in HH; discriminate HH.
Qed.

(** X2: when a preview arrives, the button 'Continue to Import' is enabled
    at once exactly when some header of the file contains 'name', 'company'
    or 'plant' in its normalised form; otherwise the user has to map a column
    to [name] by hand first. *)
Theorem initial_mapping_valid_iff_name_header (hs : list jsstring) :
  validateMappings (initialMappings hs) = [] <->
  exists h, In h hs /\ nameRule h = true.
Proof.
  rewrite validateMappings_name. unfold mapsTo, initialMappings, nameRule.
  split.
  - intros [m [Hm E]]. apply in_map_iff in Hm as [h [<- Hh]].
    exists h. split; [exact Hh|]. apply suggestedField_name_iff. exact E.
  - intros [h [Hh E]]. exists (suggestMapping h). split.
    + apply in_map. exact Hh.
    + apply suggestedField_name_iff. exact E.
Qed.

(** X3: inference never proposes the two label fields, [phone_label] and
    [secondary_phone_label]; a column is mapped to them by hand or not at
    all. *)
Theorem label_fields_never_suggested (h : jsstring) :
  leadField (suggestMapping h) <> lit "phone_label" /\
  leadField (suggestMapping h) <> lit "secondary_phone_label".
Proof.
  unfold suggestMapping. cbn [leadField]. unfold suggestedField.
  split;
    repeat (chain_step; [intros HH; vm_compute in HH; discriminate HH|]);
    intros HH; vm_compute in HH; discriminate HH.
Qed.

(** X4: a column headed by the name of a registry field (as in the import
    template) is mapped to that field, except for the two label fields, which
    are mapped to their phone fields. *)
Theorem registry_names_map_to_themselves (F : ValidationInfo) :
  In F leadFields ->
  leadField (suggestMapping (field F)) =
    if streq (field F) (lit "phone_label") then lit "phone"
    else if streq (field F) (lit "secondary_phone_label")
         then lit "secondary_phone"
         else field F.
Proof.
  intros HF. unfold leadFields in HF. cbn [In] in HF.
  repeat (destruct HF as [<-|HF]; [vm_compute; reflexivity|]).
  destruct HF.
Qed.

Lemma registry_names_map_to_themselves_witness :
  leadField (suggestMapping (lit "contact_person")) = lit "contact_person" /\
  leadField (suggestMapping (lit "secondary_phone_label")) = lit "secondary_phone".
Proof.
  split.
  - apply (registry_names_map_to_themselves
             (mkValidationInfo (lit "contact_person") false
                (lit "Primary contact person name") (Some (lit "John Smith")))).
    vm_compute. tauto.
  - apply (registry_names_map_to_themselves
             (mkValidationInfo (lit "secondary_phone_label") false
                (lit "Secondary phone type") (Some (lit "mobile")))).
    vm_compute. tauto.
Defined.

(** X5: [contact_person] is proposed exactly for the headers whose
    normalised form contains both 'contact' and 'person' and none of 'name',
    'company' and 'plant'.  The alternative 'name' of the contact rule never
    decides: a header with 'contact' and 'name' is given [name]. *)
Theorem contact_person_rule (h : jsstring) :
  let n := normalizedHeader h in
  (leadField (suggestMapping h) = lit "contact_person" <->
   has n "name" || has n "company" || has n "plant" = false /\
   has n "contact" = true /\ has n "person" = true) /\
  (has n "contact" = true -> has n "name" = true ->
   leadField (suggestMapping h) = lit "name").
Proof.
  intros n. unfold suggestMapping. cbn [leadField]. fold n.
  unfold suggestedField. split.
  - destruct (has n "name") eqn:E1, (has n "company") eqn:E2,
             (has n "plant") eqn:E3, (has n "contact") eqn:E4,
             (has n "person") eqn:E5;
      cbn [orb andb negb];
      (split;
       [ intros HH;
         first [ repeat split; reflexivity
               | exfalso; revert HH;
                 repeat (chain_step;
                         [intros HH; vm_compute in HH; discriminate HH|]);
                 intros HH; vm_compute in HH; discriminate HH ]
       | intros [H1 [H2 H3]];
         first [ reflexivity | discriminate H1 | discriminate H2
               | discriminate H3 ] ]).
  - intros Hc Hn. rewrite Hn. reflexivity.
Qed.

Lemma contact_person_rule_witness :
  leadField (suggestMapping (lit "Contact Name")) = lit "name" /\
  leadField (suggestMapping (lit "Contact Person")) = lit "contact_person".
Proof.
  split.
  - apply (proj2 (contact_person_rule (lit "Contact Name")));
      vm_compute; reflexivity.
  - apply (proj1 (contact_person_rule (lit "Contact Person"))).
    vm_compute. repeat split.
Defined.

Lemma normalizedHeader_app (a b : jsstring) :
  normalizedHeader (a ++ b) = normalizedHeader a ++ normalizedHeader b.
Proof. rewrite !normalizedHeader_flat_map. apply flat_map_app. Qed.

Lemma normalizedUnit_fixed (c : Z) :
  isLowerAlnum c = true -> normalizedUnit c = [c].
Proof.
  intros H. unfold normalizedUnit. rewrite H.
  apply isLowerAlnum_range in H.
  replace ((65 <=? c) && (c <=? 90)) with false; [reflexivity|].
  symmetry. apply andb_false_iff.
  destruct (Z.leb_spec 65 c); [right; apply Z.leb_gt; lia | left; reflexivity].
Qed.

Lemma normalizedHeader_idempotent (h : jsstring) :
  normalizedHeader (normalizedHeader h) = normalizedHeader h.
Proof.
  rewrite (normalizedHeader_flat_map (normalizedHeader h)).
  assert (H : Forall (fun c => isLowerAlnum c = true) (normalizedHeader h)).
  { unfold normalizedHeader, stripNonAlnum. apply Forall_forall.
    intros c Hc. apply filter_In in Hc. tauto. }
  induction H as [|c l Hc _ IH]; [reflexivity|].
  cbn [flat_map]. rewrite normalizedUnit_fixed by exact Hc.
  rewrite IH. reflexivity.
Qed.

(** X6: the proposed field does not depend on the case of ASCII letters
    nor on characters outside letters and digits: dropping a character that
    normalisation removes (a space, an underscore, punctuation) anywhere in a
    header, or replacing an ASCII capital by its small letter, leaves the
    proposal unchanged, and so does normalising the whole header first. *)
Theorem inference_ignores_case_and_punctuation (a b : jsstring) (c : Z) :
  (normalizedUnit c = [] ->
   leadField (suggestMapping (a ++ c :: b)) = leadField (suggestMapping (a ++ b))) /\
  (65 <= c <= 90 ->
   leadField (suggestMapping (a ++ c :: b)) =
   leadField (suggestMapping (a ++ (c + 32) :: b))) /\
  leadField (suggestMapping (normalizedHeader a)) = leadField (suggestMapping a).
Proof.
  unfold suggestMapping. cbn [leadField]. split; [|split].
  - intros Hc. f_equal.
    change (c :: b) with ([c] ++ b).
    rewrite !normalizedHeader_app.
    rewrite (normalizedHeader_flat_map [c]). cbn [flat_map].
    rewrite Hc. reflexivity.
  - intros Hc. f_equal.
    change (c :: b) with ([c] ++ b). change ((c + 32) :: b) with ([c + 32] ++ b).
    rewrite !normalizedHeader_app. f_equal. f_equal.
    rewrite !normalizedHeader_flat_map. cbn [flat_map]. rewrite !app_nil_r.
    rewrite (normalizedUnit_fixed (c + 32))
      by (apply isLowerAlnum_range; lia).
    unfold normalizedUnit.
    replace ((65 <=? c) && (c <=? 90)) with true; [reflexivity|].
    symmetry. apply andb_true_iff. split; apply Z.leb_le; lia.
  - rewrite normalizedHeader_idempotent. reflexivity.
Qed.

Lemma inference_ignores_case_and_punctuation_witness :
  leadField (suggestMapping (lit "Zip_Code")) =
  leadField (suggestMapping (lit "ZipCode")) /\
  leadField (suggestMapping (lit "ZipCode")) =
  leadField (suggestMapping (lit "Zipcode")).
Proof.
  split.
  - apply (proj1 (inference_ignores_case_and_punctuation
                    (lit "Zip") (lit "Code") 95)).
    reflexivity.
  - apply (proj1 (proj2 (inference_ignores_case_and_punctuation
                           (lit "Zip") (lit "ode") 67))).
    lia.
Defined.

Example plan_type_is_a_plant :
  leadField (suggestMapping (lit "Plan Type")) = lit "name".
Proof. vm_compute. reflexivity. Qed.

(** ** More on the mapping editor *)

Lemma streq_refl (a : jsstring) : streq a a = true.
Proof. apply streq_eq. reflexivity. Qed.

Lemma streq_neq (a b : jsstring) : a <> b -> streq a b = false.
Proof.
  intros H. destruct (streq a b) eqn:E; [|reflexivity].
  apply streq_eq in E. contradiction.
Qed.

Lemma updateMapping_absent (c f : jsstring) (l : list ColumnMapping) :
  ~ In c (map csvColumn l) -> updateMapping c f l = l.
Proof.
  intros H. unfold updateMapping. rewrite <- (map_id l) at 2.
  apply map_ext_in. intros m Hm.
  rewrite streq_neq; [reflexivity|].
  intros E. apply H. rewrite <- E. apply in_map. exact Hm.
Qed.

(** X7: edits of the mapping compose as assignments to columns do: a second
    choice for a column overrides the first, repeating a choice changes
    nothing, choices for two different columns can be made in either order,
    and a choice for a column that is not in the list changes nothing. *)
Theorem updateMapping_composes (c1 c2 f1 f2 : jsstring) (l : list ColumnMapping) :
  updateMapping c1 f2 (updateMapping c1 f1 l) = updateMapping c1 f2 l /\
  updateMapping c1 f1 (updateMapping c1 f1 l) = updateMapping c1 f1 l /\
  (c1 <> c2 ->
   updateMapping c1 f1 (updateMapping c2 f2 l) =
   updateMapping c2 f2 (updateMapping c1 f1 l)) /\
  (~ In c1 (map csvColumn l) -> updateMapping c1 f1 l = l).
Proof.
  assert (Hover : forall f f', updateMapping c1 f' (updateMapping c1 f l) =
                               updateMapping c1 f' l).
  { intros f f'. unfold updateMapping. rewrite map_map. apply map_ext.
    intros m. destruct (streq (csvColumn m) c1) eqn:E; cbn [csvColumn].
    - rewrite E. reflexivity.
    - rewrite E. reflexivity. }
  split; [apply Hover|]. split; [apply Hover|]. split.
  - intros Hne. unfold updateMapping. rewrite !map_map. apply map_ext.
    intros m.
    destruct (streq (csvColumn m) c1) eqn:E1,
             (streq (csvColumn m) c2) eqn:E2; cbn [csvColumn];
      rewrite ?E1, ?E2; try reflexivity.
    apply streq_eq in E1, E2. congruence.
  - apply updateMapping_absent.
Qed.

Lemma updateMapping_composes_witness :
  let l := [ mkColumnMapping (lit "Firm") []; mkColumnMapping (lit "Town") [] ] in
  updateMapping (lit "Firm") (lit "name") (updateMapping (lit "Town") (lit "city") l) =
  updateMapping (lit "Town") (lit "city") (updateMapping (lit "Firm") (lit "name") l)
  /\ updateMapping (lit "Street") (lit "address") l = l.
Proof.
  intros l.
  destruct (updateMapping_composes (lit "Firm") (lit "Town")
              (lit "name") (lit "city") l) as [_ [_ [H _]]].
  destruct (updateMapping_composes (lit "Street") (lit "Town")
              (lit "address") (lit "city") l) as [_ [_ [_ H']]].
  split.
  - apply H. vm_compute. discriminate.
  - apply H'. vm_compute. intuition discriminate.
Defined.

(** X8: editing and validating: once any column of the list is set to
    [name] the mapping passes validation; and if every column mapped to
    [name] has the same header, setting that header to another field (or to
    'skip') makes validation fail. *)
Theorem updateMapping_changes_validity (c f : jsstring) (l : list ColumnMapping) :
  (In c (map csvColumn l) ->
   validateMappings (updateMapping c (lit "name") l) = []) /\
  (f <> lit "name" ->
   (forall m, In m l -> leadField m = lit "name" -> csvColumn m = c) ->
   validateMappings (updateMapping c f l) =
     [lit "Missing required fields: name"]).
Proof.
  split.
  - intros Hc. apply validateMappings_name.
    apply in_map_iff in Hc as [m [Hm Hin]].
    exists (mkColumnMapping (csvColumn m) (lit "name")). split; [|reflexivity].
    unfold updateMapping. apply in_map_iff. exists m. split; [|exact Hin].
    rewrite Hm, streq_refl. reflexivity.
  - intros Hf Hall.
    assert (Hn : ~ mapsTo (updateMapping c f l) (lit "name")).
    { intros [m' [Hm' E]]. unfold updateMapping in Hm'.
      apply in_map_iff in Hm' as [m [<- Hm]].
      destruct (streq (csvColumn m) c) eqn:Ec.
      - cbn [leadField] in E. contradiction.
      - apply Hall in E; [|exact Hm].
        rewrite E, streq_refl in Ec. discriminate Ec. }
    rewrite validateMappings_cases, missingRequired_name.
    destruct (arrIncludes (mappedFields (updateMapping c f l)) (lit "name")) eqn:E.
    + apply arrIncludes_In, mappedFields_In in E. tauto.
    + vm_compute. reflexivity.
Qed.

Lemma updateMapping_changes_validity_witness :
  let l := [ mkColumnMapping (lit "Firm") []; mkColumnMapping (lit "Town") [] ] in
  validateMappings (updateMapping (lit "Firm") (lit "name") l) = [] /\
  validateMappings
    (updateMapping (lit "Firm") [] (updateMapping (lit "Firm") (lit "name") l)) =
  [lit "Missing required fields: name"].
Proof.
  intros l. split.
  - apply (proj1 (updateMapping_changes_validity (lit "Firm") [] l)).
    vm_compute. tauto.
  - apply (proj2 (updateMapping_changes_validity (lit "Firm") []
                    (updateMapping (lit "Firm") (lit "name") l))).
    + discriminate.
    + intros m Hm E. vm_compute in Hm. destruct Hm as [<-|[<-|[]]].
      * reflexivity.
      * vm_compute in E. discriminate E.
Defined.

(** ** The preview table *)

(** X9: the preview table shows a prefix of the rows: all of them when
    'Show More' is on, and the first three otherwise; the note under the
    table appears exactly when rows are hidden, and the number in it is the
    number of hidden rows. *)
Theorem preview_rows_and_note (p : PreviewData) (showAll : bool) :
  visibleRows p showAll =
    firstn (if showAll then length (rows p) else 3) (rows p) /\
  Z.of_nat (length (visibleRows p showAll)) +
    match moreRowsNote p showAll with Some n => n | None => 0 end =
    Z.of_nat (length (rows p)) /\
  (moreRowsNote p showAll = None <-> visibleRows p showAll = rows p).
Proof.
  assert (Hvis : visibleRows p showAll =
                 firstn (if showAll then length (rows p) else 3) (rows p)).
  { unfold visibleRows, sliceTo. destruct showAll.
    - replace (Z.of_nat (length (rows p)) <? 0) with false
        by (symmetry; apply Z.ltb_ge; lia).
      rewrite Z.min_id, Nat2Z.id. reflexivity.
    - cbn [Z.ltb Z.compare].
      destruct (Nat.le_gt_cases 3 (length (rows p))) as [Hle|Hgt].
      + replace (Z.to_nat (Z.min 3 (Z.of_nat (length (rows p))))) with 3%nat
          by lia.
        reflexivity.
      + replace (Z.to_nat (Z.min 3 (Z.of_nat (length (rows p)))))
          with (length (rows p)) by lia.
        rewrite !firstn_all2 by lia. reflexivity. }
  split; [exact Hvis|]. rewrite Hvis. unfold moreRowsNote.
  destruct showAll; cbn [negb andb].
  - rewrite firstn_all. split; [lia|]. split; reflexivity.
  - rewrite length_firstn.
    destruct (Z.ltb_spec 3 (Z.of_nat (length (rows p)))) as [Hlt|Hge].
    + split; [lia|]. split; [discriminate|].
      intros E. apply (f_equal (@length _)) in E.
      rewrite length_firstn in E. lia.
    + split; [lia|]. split; [|reflexivity].
      intros _. apply firstn_all2. lia.
Qed.

(** ** More on the file-type check *)

Lemma lastIndexOfFrom_absent (c : Z) (s : jsstring) (i : Z) :
  0 <= i -> ~ In c s -> lastIndexOfFrom i s [c] = -1.
Proof.
  intros Hi Hn.
  destruct (lastIndexOfFrom_unit c s i Hi) as [[Hr _]|[pre [suf [Hs _]]]].
  - exact Hr.
  - exfalso. apply Hn. rewrite Hs. apply in_elt.
Qed.

Lemma lastIndexOfFrom_last (c : Z) (pre suf : jsstring) :
  ~ In c suf ->
  forall i, 0 <= i ->
    lastIndexOfFrom i (pre ++ c :: suf) [c] = i + Z.of_nat (length pre).
Proof.
  intros Hn. induction pre as [|x pre IH]; intros i Hi.
  - cbn [app lastIndexOfFrom].
    rewrite lastIndexOfFrom_absent by (lia || exact Hn).
    cbn [Z.leb Z.compare startsWith].
    rewrite Z.eqb_refl, startsWith_nil. cbn [andb length]. lia.
  - cbn [app lastIndexOfFrom]. rewrite IH by lia.
    replace (0 <=? i + 1 + Z.of_nat (length pre)) with true
      by (symmetry; apply Z.leb_le; lia).
    cbn [length]. lia.
Qed.

Lemma toLowerCase_same_length (s : jsstring) :
  ~ In 304 s -> length (toLowerCase s) = length s.
Proof.
  unfold toLowerCase. induction s as [|c s IH]; intros Hn; [reflexivity|].
  cbn [flat_map]. rewrite length_app, IH by (intros H; apply Hn; right; exact H).
  assert (Hc : c <> 304) by (intros ->; apply Hn; left; reflexivity).
  unfold lowerUnit.
  destruct ((65 <=? c) && (c <=? 90)); [reflexivity|].
  destruct (c =? 8490); [reflexivity|].
  apply Z.eqb_neq in Hc. rewrite Hc. reflexivity.
Qed.

Lemma toLowerCase_longer (s : jsstring) :
  In 304 s -> (length s < length (toLowerCase s))%nat.
Proof.
  induction s as [|c s IH]; intros Hin; [destruct Hin|].
  change (toLowerCase (c :: s)) with (lowerUnit c ++ toLowerCase s).
  rewrite length_app. cbn [length].
  pose proof (toLowerCase_length s) as Hs.
  destruct Hin as [->|Hin].
  - cbn. lia.
  - specialize (IH Hin).
    pose proof (toLowerCase_length [c]) as Hc.
    unfold toLowerCase in Hc. cbn [flat_map length] in Hc.
    rewrite app_nil_r in Hc. lia.
Qed.

Lemma fileExtension_split (f : File) (pre suf : jsstring) :
  name f = pre ++ 46 :: suf -> ~ In 46 suf ->
  fileExtension f =
  skipn (length pre) (toLowerCase pre) ++ toLowerCase (46 :: suf).
Proof.
  intros Hname Hn. unfold fileExtension, lastIndexOf.
  change (lit ".") with [46]. rewrite Hname.
  rewrite lastIndexOfFrom_last by (lia || exact Hn).
  unfold toLowerCase. rewrite flat_map_app.
  change (0 + Z.of_nat (length pre)) with (Z.of_nat (length pre)).
  apply slice_app_within. apply toLowerCase_length.
Qed.

(** X10: a file is taken when no LATIN CAPITAL LETTER I WITH DOT ABOVE
    stands before the last full stop of its name (so for every ASCII name)
    and its lower-cased extension is .csv or .xlsx: the handler stores the
    file, clears the error, marks the file as being processed and sends one
    preview request, for that file. *)
Theorem handleFileChange_accepts (f : File) (pre suf : jsstring) :
  name f = pre ++ 46 :: suf -> ~ In 46 suf -> ~ In 304 pre ->
  In (toLowerCase (46 :: suf)) validTypes ->
  handleFileChange (Some f) =
    [ SetFile (Some f); SetError []; SetIsProcessingFile true;
      Fetch (PreviewRequest f) ].
Proof.
  intros Hname Hn Hi Hext. unfold handleFileChange.
  rewrite (fileExtension_split f pre suf Hname Hn).
  rewrite <- (toLowerCase_same_length pre Hi), skipn_all. cbn [app].
  apply arrIncludes_In in Hext. rewrite Hext. reflexivity.
Qed.

Lemma handleFileChange_accepts_witness :
  requests (handleFileChange (Some (mkFile (lit "Q3 leads.Csv") [1; 2; 3]))) =
  [ PreviewRequest (mkFile (lit "Q3 leads.Csv") [1; 2; 3]) ].
Proof.
  rewrite (handleFileChange_accepts (mkFile (lit "Q3 leads.Csv") [1; 2; 3])
             (lit "Q3 leads") (lit "Csv")).
  - reflexivity.
  - reflexivity.
  - vm_compute. intuition discriminate.
  - vm_compute. intuition discriminate.
  - vm_compute. tauto.
Defined.

(** X11: a file whose name has a LATIN CAPITAL LETTER I WITH DOT ABOVE
    (U+0130) before its last full stop is turned down whatever its extension:
    the position of the full stop is taken in the name as typed and used in
    the lower-cased name, which is longer. *)
Theorem handleFileChange_rejects_dotted_capital_I (f : File) (pre suf : jsstring) :
  name f = pre ++ 46 :: suf -> ~ In 46 suf -> In 304 pre ->
  handleFileChange (Some f) =
    [ SetError (lit "Please upload a CSV or Excel (.xlsx) file"); SetFile None ].
Proof.
  intros Hname Hn Hi. unfold handleFileChange.
  destruct (arrIncludes validTypes (fileExtension f)) eqn:E; [|reflexivity].
  exfalso. apply arrIncludes_In in E.
  rewrite (fileExtension_split f pre suf Hname Hn) in E.
  pose proof (toLowerCase_longer pre Hi) as Hlen.
  destruct (skipn (length pre) (toLowerCase pre)) as [|a x] eqn:Hs.
  - apply (f_equal (@length _)) in Hs. rewrite length_skipn in Hs.
    cbn [length] in Hs. lia.
  - change (toLowerCase (46 :: suf)) with (46 :: toLowerCase suf) in E.
    eapply accepted_type_one_stop; [exact E | reflexivity].
Qed.

Lemma handleFileChange_rejects_dotted_capital_I_witness :
  handleFileChange (Some (mkFile ([304] ++ lit "hracat.csv") [])) =
  [ SetError (lit "Please upload a CSV or Excel (.xlsx) file"); SetFile None ].
Proof.
  apply (handleFileChange_rejects_dotted_capital_I
           (mkFile ([304] ++ lit "hracat.csv") [])
           ([304] ++ lit "hracat") (lit "csv")).
  - reflexivity.
  - vm_compute. intuition discriminate.
  - left. reflexivity.
Defined.

(** ** More on the handlers *)

Lemma orElse_nonempty (a b : jsstring) : b <> [] -> orElse a b <> [].
Proof. intros Hb. unfold orElse. destruct a; [exact Hb | discriminate]. Qed.

(** X12: when the preview request fails, the page shows a message that is
    never empty (the error's own, or 'Failed to process file' when it has
    none), forgets the file and stops the spinner; the mappings, the preview
    and the step are left as they were, and an import tried from that state
    sends nothing. *)
Theorem preview_failure_is_reported (st : State) (msg : jsstring) :
  let st' := run st (handleFileChangeResume (PreviewThrew msg)) in
  error st' <> [] /\
  error st' = (if truthy msg then msg else lit "Failed to process file") /\
  file st' = None /\
  isProcessingFile st' = false /\
  columnMappings st' = columnMappings st /\
  previewData st' = previewData st /\
  currentStep st' = currentStep st /\
  requests (handleFileChangeResume (PreviewThrew msg)) = [] /\
  requests (handleImport st') = [].
Proof.
  cbn. repeat split. apply orElse_nonempty. discriminate.
Qed.

Lemma handleImport_cases (st : State) :
  (handleImport st = [ SetError (lit "Please select a file and user") ] /\
   (file st = None \/ selectedUser st = [])) \/
  (handleImport st = [ SetError (lit "Missing required fields: name") ] /\
   file st <> None /\ selectedUser st <> [] /\
   validateMappings (columnMappings st) <> []) \/
  (exists f,
     file st = Some f /\ selectedUser st <> [] /\
     validateMappings (columnMappings st) = [] /\
     handleImport st =
       [ SetIsUploading true; SetError []; SetImportResult None;
         Fetch (ImportRequest f (selectedUser st) (columnMappings st)) ]).
Proof.
  unfold handleImport.
  destruct (file st) as [f|]; [|left; split; [reflexivity | left; reflexivity]].
  destruct (selectedUser st) as [|c u] eqn:Eu;
    [left; split; [reflexivity | right; reflexivity]|].
  cbn [truthy]. right.
  rewrite validateMappings_cases, missingRequired_name.
  destruct (arrIncludes (mappedFields (columnMappings st)) (lit "name")).
  - right. exists f. repeat split; discriminate.
  - left. repeat split; discriminate.
Qed.

(** X13: [handleImport] sends a request exactly when a file is selected, a
    user is selected and the mappings pass validation; it then sends one
    request, made of the state's file, user and mappings as they are, marks
    the upload as running and clears the error and the previous result. *)
Theorem handleImport_sends_iff_ready (st : State) :
  (requests (handleImport st) <> [] <->
   file st <> None /\ selectedUser st <> [] /\
   validateMappings (columnMappings st) = []) /\
  (forall r, In r (requests (handleImport st)) ->
     exists f, file st = Some f /\
       r = ImportRequest f (selectedUser st) (columnMappings st) /\
       requests (handleImport st) = [r] /\
       isUploading (run st (handleImport st)) = true /\
       error (run st (handleImport st)) = [] /\
       importResult (run st (handleImport st)) = None /\
       columnMappings (run st (handleImport st)) = columnMappings st /\
       file (run st (handleImport st)) = file st).
Proof.
  destruct (handleImport_cases st)
    as [[E H]|[[E [Hf [Hu Hv]]]|[f [Hf [Hu [Hv E]]]]]]; rewrite E.
  - split.
    + split; [intros C; contradiction C; reflexivity|].
      intros [H1 [H2 _]]. destruct H; contradiction.
    + intros r [].
  - split.
    + split; [intros C; contradiction C; reflexivity|].
      intros [_ [_ H3]]. contradiction.
    + intros r [].
  - split.
    + split; [intros _|discriminate].
      repeat split; try assumption. rewrite Hf. discriminate.
    + intros r [<-|[]]. exists f. repeat split. exact Hf.
Qed.

Lemma handleImport_sends_iff_ready_witness :
  let st := mkState [] (lit "rep@example.com")
                    (Some (mkFile (lit "leads.csv") [])) None
                    [mkColumnMapping (lit "Company") (lit "name")]
                    false false None (lit "Failed to load users") false
                    StepImport false in
  isUploading (run st (handleImport st)) = true /\
  error (run st (handleImport st)) = [].
Proof.
  intros st.
  destruct (proj2 (handleImport_sends_iff_ready st)
              (ImportRequest (mkFile (lit "leads.csv") [])
                 (lit "rep@example.com")
                 [mkColumnMapping (lit "Company") (lit "name")]))
    as [f [_ [_ [_ [H1 [H2 _]]]]]].
  - vm_compute. left. reflexivity.
  - split; [exact H1 | exact H2].
Defined.

(** X14: the two refusals of [handleImport] and their order: without a file
    or without a user the message is 'Please select a file and user',
    whatever the mappings are; with both and mappings that fail validation it
    is 'Missing required fields: name'.  In both cases nothing else
    happens. *)
Theorem handleImport_refusals (st : State) :
  (file st = None \/ selectedUser st = [] ->
   handleImport st = [ SetError (lit "Please select a file and user") ]) /\
  (file st <> None -> selectedUser st <> [] ->
   validateMappings (columnMappings st) <> [] ->
   handleImport st = [ SetError (lit "Missing required fields: name") ]).
Proof.
  destruct (handleImport_cases st)
    as [[E H]|[[E [Hf [Hu Hv]]]|[f [Hf [Hu [Hv E]]]]]]; split.
  - intros _. exact E.
  - intros Hf Hu. destruct H; contradiction.
  - intros [H|H]; contradiction.
  - intros _ _ _. exact E.
  - intros [H|H]; [rewrite H in Hf; discriminate | contradiction].
  - intros _ _ Hv'. contradiction.
Qed.

Lemma handleImport_refusals_witness :
  handleImport
    (mkState [] [] (Some (mkFile (lit "leads.csv") [])) None []
             false false None [] false StepImport false) =
  [ SetError (lit "Please select a file and user") ] /\
  handleImport
    (mkState [] (lit "rep@example.com") (Some (mkFile (lit "leads.csv") []))
             None [] false false None [] false StepImport false) =
  [ SetError (lit "Missing required fields: name") ].
Proof.
  split.
  - apply (proj1 (handleImport_refusals _)). right. reflexivity.
  - apply (proj2 (handleImport_refusals _)).
    + discriminate.
    + discriminate.
    + vm_compute. discriminate.
Defined.

(** X15: after an import has succeeded the form is empty again (no file,
    no user, no preview, no mappings), the result is stored and the page is
    on the last step; pressing Import again from that state sends nothing. *)
Theorem import_success_resets_form (st : State) (data : ImportResult) :
  let st' := run st (handleImportResume (ImportArrived data)) in
  importResult st' = Some data /\ currentStep st' = StepImport /\
  file st' = None /\ selectedUser st' = [] /\ previewData st' = None /\
  columnMappings st' = [] /\ isUploading st' = false /\
  error st' = error st /\
  handleImport st' = [ SetError (lit "Please select a file and user") ] /\
  requests (handleImport st') = [].
Proof. cbn. repeat split. Qed.

(** X16: after an import has failed, the message shown is never empty, and
    the file, the user and the mappings are still there: pressing Import
    again sends the same request as before. *)
Theorem import_failure_allows_retry (st : State) (msg : jsstring) (r : Request) :
  In r (requests (handleImport st)) ->
  let st' := run (run st (handleImport st))
                 (handleImportResume (ImportThrew msg)) in
  error st' <> [] /\
  error st' = (if truthy msg then msg else lit "Import failed") /\
  isUploading st' = false /\
  requests (handleImport st') = [r].
Proof.
  intros Hr.
  destruct (handleImport_cases st)
    as [[E H]|[[E [Hf [Hu Hv]]]|[f [Hf [Hu [Hv E]]]]]];
    rewrite E in *; try (destruct Hr; fail).
  destruct Hr as [<-|[]].
  cbn [run fold_left applyEffect handleImportResume error isUploading].
  split; [apply orElse_nonempty; discriminate|].
  split; [reflexivity|]. split; [reflexivity|].
  unfold handleImport.
  cbn [file selectedUser columnMappings users previewData isUploading
       isProcessingFile importResult error showModal currentStep showAllPreview].
  rewrite Hf, Hv.
  destruct (selectedUser st); [contradiction Hu; reflexivity|]. reflexivity.
Qed.

Lemma import_failure_allows_retry_witness :
  let st := mkState [] (lit "rep@example.com")
                    (Some (mkFile (lit "leads.csv") [])) None
                    [mkColumnMapping (lit "Company") (lit "name")]
                    false false None [] false StepImport false in
  requests
    (handleImport
       (run (run st (handleImport st))
            (handleImportResume (ImportThrew (lit "Server error: 502 Bad Gateway"))))) =
  [ ImportRequest (mkFile (lit "leads.csv") []) (lit "rep@example.com")
                  [mkColumnMapping (lit "Company") (lit "name")] ].
Proof.
  intros st.
  apply (import_failure_allows_retry st (lit "Server error: 502 Bad Gateway")).
  vm_compute. left. reflexivity.
Defined.

(** X17: 'Start Over' and 'Import Another File' bring the page back to the
    first step with no file, preview, mappings, result or error; the list of
    users and the selected user are kept; doing it twice is doing it once,
    and an import tried right after sends nothing. *)
Theorem resetImport_clears_session (st : State) :
  let st' := run st resetImport in
  st' = mkState (users st) (selectedUser st) None None [] (isUploading st)
                (isProcessingFile st) None [] (showModal st) StepUpload
                (showAllPreview st) /\
  run st' resetImport = st' /\
  validateMappings (columnMappings st') <> [] /\
  requests (handleImport st') = [].
Proof.
  cbn. repeat split. vm_compute. discriminate.
Qed.

(** ** The component as a whole *)

Lemma updateMapping_csvColumns (c f : jsstring) (l : list ColumnMapping) :
  map csvColumn (updateMapping c f l) = map csvColumn l.
Proof.
  unfold updateMapping. rewrite map_map. apply map_ext.
  intros m. destruct (streq (csvColumn m) c); reflexivity.
Qed.

Lemma updateMapping_inRegistry (c f : jsstring) (l : list ColumnMapping) :
  In f optionValues -> Forall inRegistry l ->
  Forall inRegistry (updateMapping c f l).
Proof.
  intros Hf Hl. unfold updateMapping. apply Forall_forall.
  intros m' Hm'. apply in_map_iff in Hm' as [m [<- Hm]].
  destruct (streq (csvColumn m) c).
  - unfold inRegistry. cbn [leadField].
    destruct Hf as [<-|Hf]; [left; reflexivity | right; exact Hf].
  - rewrite Forall_forall in Hl. apply Hl. exact Hm.
Qed.

Lemma initialMappings_inRegistry (hs : list jsstring) :
  Forall inRegistry (initialMappings hs).
Proof.
  unfold initialMappings. apply Forall_forall.
  intros m Hm. apply in_map_iff in Hm as [h [<- _]].
  apply suggestedField_registry.
Qed.

Lemma initialMappings_csvColumns (hs : list jsstring) :
  map csvColumn (initialMappings hs) = hs.
Proof.
  unfold initialMappings. rewrite map_map. apply map_id.
Qed.

Lemma stepEqb_eq (a b : Step) : stepEqb a b = true <-> a = b.
Proof. destruct a, b; simpl; split; congruence. Qed.

Lemma sound_initial : sound initialState.
Proof.
  unfold sound, aligned. cbn. repeat split; try constructor; discriminate.
Qed.

Lemma sound_react (st : State) (ev : Event) :
  sound st -> enabled st ev = true -> sound (react st ev).
Proof.
  intros [Hgate [Hal [Hreg [Hfile Hact]]]] Hen.
  unfold sound, aligned in *.
  destruct ev as [o|ok|u|f|o|index value| | | | | |o| | |]; cbn [react enabled] in *.
  - destruct o; state_simpl; repeat split; auto.
    apply Forall_forall. intros u Hu. apply filter_In in Hu. tauto.
  - destruct ok; state_simpl; repeat split; auto.
  - state_simpl. repeat split; auto.
  - destruct f as [f|]; [|repeat split; auto].
    unfold handleFileChange.
    destruct (arrIncludes validTypes (fileExtension f)) eqn:E; cbn [negb];
      state_simpl; repeat split; auto.
    + intros f' Hf'. injection Hf' as <-. apply arrIncludes_In. exact E.
    + discriminate.
  - destruct o as [msg|p]; state_simpl; repeat split; auto.
    + discriminate.
    + discriminate.
    + apply initialMappings_csvColumns.
    + apply initialMappings_inRegistry.
  - apply andb_true_iff in Hen as [Hen Hv].
    apply andb_true_iff in Hen as [Hshown Hi].
    apply andb_true_iff in Hshown as [Hstep _].
    apply stepEqb_eq in Hstep. apply arrIncludes_In in Hv.
    destruct (nth_error (columnMappings st) index) as [m|];
      [|discriminate Hi].
    state_simpl. repeat split; auto.
    + intros C. congruence.
    + destruct (previewData st).
      * rewrite updateMapping_csvColumns. exact Hal.
      * rewrite Hal. reflexivity.
    + apply updateMapping_inRegistry; assumption.
  - unfold setShowAllPreview. state_simpl. repeat split; auto.
  - state_simpl. repeat split; auto; discriminate.
  - apply andb_true_iff in Hen as [_ Hc]. apply negb_true_iff in Hc.
    apply continueDisabled_false in Hc.
    state_simpl. repeat split; auto.
  - destruct (handleImport_cases st)
      as [[E H]|[[E [Hf [Hu Hv]]]|[f [Hf [Hu [Hv E]]]]]];
      rewrite E; state_simpl; repeat split; auto.
  - state_simpl. repeat split; auto. discriminate.
  - destruct o as [msg|data]; state_simpl; repeat split; auto; discriminate.
  - state_simpl. repeat split; auto; discriminate.
  - unfold setShowModal. state_simpl. repeat split; auto.
  - unfold setShowModal. state_simpl. repeat split; auto.
Qed.

Lemma reachable_sound (st : State) : reachable st -> sound st.
Proof.
  induction 1 as [|st ev _ IH Hen]; [apply sound_initial|].
  apply sound_react; assumption.
Qed.

Lemma reachable_demoSession :
  reachable (fold_left react demoSession initialState).
Proof.
  unfold demoSession. cbn [fold_left].
  repeat (apply reachable_react; [|vm_compute; reflexivity]).
  apply reachable_initial.
Qed.

(** X18: whenever the Import button can be pressed, the mappings pass
    validation: the button is reached through 'Continue to Import' only,
    which validation gates, and nothing edits the mappings on the last step.
    So pressing it either sends the import or reports a missing file or
    user; the refusal 'Missing required fields' is never seen there. *)
Theorem import_button_implies_valid_mapping (st : State) :
  reachable st -> enabled st ClickImport = true ->
  validateMappings (columnMappings st) = [] /\
  (handleImport st = [ SetError (lit "Please select a file and user") ] \/
   exists f, requests (handleImport st) =
             [ ImportRequest f (selectedUser st) (columnMappings st) ]).
Proof.
  intros Hr Hen. apply reachable_sound in Hr as [Hgate _].
  cbn [enabled] in Hen. apply andb_true_iff in Hen as [Hshown _].
  unfold importShown in Hshown. apply andb_true_iff in Hshown as [Hstep Hres].
  apply stepEqb_eq in Hstep.
  assert (Hnone : importResult st = None)
    by (destruct (importResult st); [discriminate Hres | reflexivity]).
  specialize (Hgate Hstep Hnone). split; [exact Hgate|].
  destruct (handleImport_cases st)
    as [[E H]|[[E [Hf [Hu Hv]]]|[f [Hf [Hu [Hv E]]]]]].
  - left. exact E.
  - contradiction.
  - right. exists f. rewrite E. reflexivity.
Qed.

Lemma import_button_implies_valid_mapping_witness :
  validateMappings
    (columnMappings (fold_left react demoSession initialState)) = [].
Proof.
  apply (import_button_implies_valid_mapping
           (fold_left react demoSession initialState)).
  - apply reachable_demoSession.
  - vm_compute. reflexivity.
Defined.

(** X19: in every state the component can reach, the mappings are those of
    the previewed file: there is one per header of the stored preview, with
    that header as source column, in the same order (so the sample cell and
    the table heading shown for a mapping belong to its column); and without
    a stored preview there are no mappings. *)
Theorem mappings_follow_preview (st : State) :
  reachable st ->
  match previewData st with
  | Some p =>
      map csvColumn (columnMappings st) = headers p /\
      length (columnMappings st) = length (headers p) /\
      (forall i, option_map csvColumn (nth_error (columnMappings st) i) =
                 nth_error (headers p) i)
  | None => columnMappings st = []
  end.
Proof.
  intros Hr. apply reachable_sound in Hr as [_ [Hal _]].
  unfold aligned in Hal. destruct (previewData st) as [p|]; [|exact Hal].
  split; [exact Hal|]. split.
  - rewrite <- Hal. symmetry. apply length_map.
  - intros i. rewrite <- Hal. symmetry. apply nth_error_map.
Qed.

Lemma mappings_follow_preview_witness :
  map csvColumn (columnMappings (fold_left react demoSession initialState)) =
  [lit "Company"; lit "Town"].
Proof.
  pose proof (mappings_follow_preview
                (fold_left react demoSession initialState)
                reachable_demoSession) as H.
  change (previewData (fold_left react demoSession initialState))
    with (Some demoPreview) in H.
  exact (proj1 H).
Defined.

(** X20: every request the component sends in any run is well formed: a
    preview or import request carries a file whose lower-cased extension is
    .csv or .xlsx, and an import request also carries a non-empty user, and
    mappings that name registry fields only and map some column to
    [name]. *)
Theorem sent_requests_are_well_formed (st : State) (ev : Event) (r : Request) :
  reachable st -> enabled st ev = true -> In r (sent st ev) ->
  match r with
  | PreviewRequest f => In (toLowerCase (extension (name f))) validTypes
  | ImportRequest f u cms =>
      In (toLowerCase (extension (name f))) validTypes /\
      u <> [] /\
      Forall inRegistry cms /\
      exists m, In m cms /\ leadField m = lit "name"
  end.
Proof.
  intros Hr Hen Hin. apply reachable_sound in Hr as [_ [_ [Hreg [Hfile _]]]].
  destruct ev; cbn [sent] in Hin; try (destruct Hin; fail).
  - destruct f as [f|]; [|destruct Hin].
    unfold handleFileChange in Hin.
    destruct (arrIncludes validTypes (fileExtension f)) eqn:E;
      cbn [negb requests] in Hin; [|destruct Hin].
    destruct Hin as [<-|[]]. apply arrIncludes_In in E.
    rewrite <- (fileExtension_accepted f E). exact E.
  - destruct (handleImport_cases st)
      as [[E H]|[[E [Hf [Hu Hv]]]|[f [Hf [Hu [Hv E]]]]]];
      rewrite E in Hin; cbn [requests] in Hin; try (destruct Hin; fail).
    destruct Hin as [<-|[]].
    specialize (Hfile f Hf).
    split; [rewrite <- (fileExtension_accepted f Hfile); exact Hfile|].
    split; [exact Hu|]. split; [exact Hreg|].
    apply validateMappings_name. exact Hv.
Qed.

Lemma sent_requests_are_well_formed_witness :
  sent (fold_left react demoSession initialState) ClickImport =
  [ ImportRequest demoFile (lit "rep@example.com")
      [ mkColumnMapping (lit "Company") (lit "name");
        mkColumnMapping (lit "Town") [] ] ] /\
  In (toLowerCase (extension (name demoFile))) validTypes.
Proof.
  split; [vm_compute; reflexivity|].
  apply (sent_requests_are_well_formed
           (fold_left react demoSession initialState) ClickImport
           (ImportRequest demoFile (lit "rep@example.com")
              [ mkColumnMapping (lit "Company") (lit "name");
                mkColumnMapping (lit "Town") [] ])).
  - apply reachable_demoSession.
  - vm_compute. reflexivity.
  - vm_compute. left. reflexivity.
Defined.

(** X21: only active users are ever listed: whatever the server sends and
    however often the list is loaded, every user the select box offers is
    active, and a user can be selected only if offered (or unselected). *)
Theorem only_active_users_offered (st : State) :
  reachable st ->
  Forall (fun u => is_active u = true) (users st) /\
  (forall u, enabled st (SelectUser u) = true ->
             u = [] \/ exists usr, In usr (users st) /\ is_active usr = true
                                   /\ email usr = u).
Proof.
  intros Hr. apply reachable_sound in Hr as [_ [_ [_ [_ Hact]]]].
  split; [exact Hact|].
  intros u Hen. cbn [enabled] in Hen.
  apply andb_true_iff in Hen as [_ Hu]. apply arrIncludes_In in Hu.
  destruct Hu as [<-|Hu]; [left; reflexivity|]. right.
  apply in_map_iff in Hu as [usr [He Hin]]. exists usr.
  rewrite Forall_forall in Hact. auto.
Qed.

Lemma only_active_users_offered_witness :
  Forall (fun u => is_active u = true)
         (users (fold_left react demoSession initialState)).
Proof.
  exact (proj1 (only_active_users_offered
                  (fold_left react demoSession initialState)
                  reachable_demoSession)).
Defined.

Example demoSession_users :
  users (fold_left react demoSession initialState) =
  [mkUser 1 (lit "rep@example.com") true].
Proof. vm_compute. reflexivity. Qed.

(** ** The trash page *)

Lemma dropId_In (i : Z) (l : list TrashPage.TrashItem) (x : TrashPage.TrashItem) :
  In x (TrashPage.dropId i l) <-> In x l /\ TrashPage.id x <> i.
Proof.
  unfold TrashPage.dropId. rewrite filter_In, negb_true_iff, Z.eqb_neq.
  reflexivity.
Qed.

(** X22: a restore or purge that the server accepts removes from the list
    of its type the items with that id and no other item, and leaves the two
    other lists as they are, also when they hold an item with the same id;
    a refusal or a failed request changes nothing on the page (a refusal
    raises an alert), and a purge that is not confirmed sends nothing. *)
Theorem trash_removal_is_per_type
    (st : TrashPage.State) (type : TrashPage.ItemType) (i : Z) :
  let st' := TrashPage.run st
               (TrashPage.handleRestoreResume type i (TrashPage.Replied true)) in
  (forall x, In x (TrashPage.listOf type st') <->
             In x (TrashPage.listOf type st) /\ TrashPage.id x <> i) /\
  (forall type', type' <> type ->
                 TrashPage.listOf type' st' = TrashPage.listOf type' st) /\
  TrashPage.loading st' = TrashPage.loading st /\
  TrashPage.error st' = TrashPage.error st /\
  TrashPage.run st
    (TrashPage.handlePurgeResume type i (TrashPage.Replied true)) = st' /\
  (forall r, r <> TrashPage.Replied true ->
     TrashPage.run st (TrashPage.handleRestoreResume type i r) = st /\
     TrashPage.run st (TrashPage.handlePurgeResume type i r) = st) /\
  TrashPage.alerts
    (TrashPage.handleRestoreResume type i (TrashPage.Replied false)) =
    [lit "Failed to restore."] /\
  TrashPage.alerts
    (TrashPage.handlePurgeResume type i (TrashPage.Replied false)) =
    [lit "Failed to permanently delete."] /\
  TrashPage.requests (TrashPage.handlePurge false type i) = [].
Proof.
  destruct st as [cs ls ps ld er].
  split; [|split; [|split; [|split; [|split; [|split]]]]].
  - intros x. destruct type; cbn; apply dropId_In.
  - intros type' Hne. destruct type, type'; try reflexivity;
      contradiction Hne; reflexivity.
  - destruct type; reflexivity.
  - destruct type; reflexivity.
  - reflexivity.
  - intros r Hr. destruct r as [|[|]];
      [ | contradiction Hr; reflexivity | ]; split; reflexivity.
  - repeat split.
Qed.

Lemma trash_react_error (st : TrashPage.State) (ev : TrashPage.Event) :
  TrashPage.error (TrashPage.react st ev) = TrashPage.error st \/
  TrashPage.error (TrashPage.react st ev) = lit "Failed to load trash.".
Proof.
  destruct ev as [|o|t i|t i r|c t i|t i r].
  - left. reflexivity.
  - destruct o; [right | right | right | right | left]; reflexivity.
  - left. reflexivity.
  - destruct r as [|[|]]; left; try reflexivity. destruct t; reflexivity.
  - destruct c; left; reflexivity.
  - destruct r as [|[|]]; left; try reflexivity. destruct t; reflexivity.
Qed.

(** X23: nothing on the trash page clears its error message: after any
    sequence of events the message is the one there was or 'Failed to load
    trash.', so once loading has failed the message stays, also after a later
    load that succeeds. *)
Theorem trash_error_is_never_cleared
    (evs : list TrashPage.Event) (st : TrashPage.State) :
  (TrashPage.error (fold_left TrashPage.react evs st) = TrashPage.error st \/
   TrashPage.error (fold_left TrashPage.react evs st) =
     lit "Failed to load trash.") /\
  (TrashPage.error st <> [] ->
   TrashPage.error (fold_left TrashPage.react evs st) <> []).
Proof.
  assert (H : TrashPage.error (fold_left TrashPage.react evs st) =
              TrashPage.error st \/
              TrashPage.error (fold_left TrashPage.react evs st) =
              lit "Failed to load trash.").
  { revert st. induction evs as [|ev evs IH]; intros st.
    - left. reflexivity.
    - cbn [fold_left].
      destruct (IH (TrashPage.react st ev)) as [E|E]; [|right; exact E].
      rewrite E. apply trash_react_error. }
  split; [exact H|].
  intros Hne. destruct H as [E|E]; rewrite E; [exact Hne | discriminate].
Qed.

Lemma trash_error_is_never_cleared_witness :
  TrashPage.error
    (fold_left TrashPage.react
       [ TrashPage.TrashLoaded TrashPage.RequestFailed;
         TrashPage.Mounted;
         TrashPage.TrashLoaded (TrashPage.TrashArrived [] [] []) ]
       TrashPage.initialState) <> [].
Proof.
  pose (st := TrashPage.react TrashPage.initialState
                (TrashPage.TrashLoaded TrashPage.RequestFailed)).
  apply (proj2 (trash_error_is_never_cleared
                  [ TrashPage.Mounted;
                    TrashPage.TrashLoaded (TrashPage.TrashArrived [] [] []) ]
                  st)).
  vm_compute. discriminate.
Defined.

(** ** The storage client *)

Lemma append_each (files acc : list File) :
  fold_left (fun fd f => fd ++ [f]) files acc = acc ++ files.
Proof.
  revert acc. induction files as [|f files IH]; intros acc; cbn [fold_left].
  - symmetry. apply app_nil_r.
  - rewrite IH, <- app_assoc. reflexivity.
Qed.

(** X24: no storage call reaches the network without a token: with an
    empty token each of the four functions throws 'Not authenticated' before
    any request is made; with a token each makes one request, whose
    Authorization header is 'Bearer ' followed by the token, and an upload
    carries the given files in their order. *)
Theorem storage_calls_need_a_token
    (token : jsstring) (files : list File) (i : Z) :
  (token = [] ->
   Storage.listFiles token = Storage.Threw (lit "Not authenticated") /\
   Storage.uploadFiles files token = Storage.Threw (lit "Not authenticated") /\
   Storage.deleteFile i token = Storage.Threw (lit "Not authenticated") /\
   Storage.downloadFile i token = Storage.Threw (lit "Not authenticated")) /\
  (token <> [] ->
   Storage.listFiles token =
     Storage.Returned
       (Storage.mkRequest Storage.GET Storage.ListEndpoint
          (lit "Bearer " ++ token) []) /\
   Storage.uploadFiles files token =
     Storage.Returned
       (Storage.mkRequest Storage.POST Storage.UploadEndpoint
          (lit "Bearer " ++ token) files) /\
   Storage.deleteFile i token =
     Storage.Returned
       (Storage.mkRequest Storage.DELETE (Storage.DeleteEndpoint i)
          (lit "Bearer " ++ token) []) /\
   Storage.downloadFile i token =
     Storage.Returned
       (Storage.mkRequest Storage.GET (Storage.DownloadEndpoint i)
          (lit "Bearer " ++ token) [])).
Proof.
  split.
  - intros ->. repeat split.
  - intros Hne.
    unfold Storage.listFiles, Storage.uploadFiles, Storage.deleteFile,
      Storage.downloadFile, Storage.authHeaders.
    destruct token as [|c token]; [contradiction Hne; reflexivity|].
    cbn [truthy negb]. rewrite append_each. repeat split.
Qed.

Lemma storage_calls_need_a_token_witness :
  Storage.deleteFile 7 [] = Storage.Threw (lit "Not authenticated") /\
  Storage.uploadFiles [demoFile] (lit "t0k3n") =
    Storage.Returned
      (Storage.mkRequest Storage.POST Storage.UploadEndpoint
         (lit "Bearer t0k3n") [demoFile]).
Proof.
  split.
  - apply (proj1 (storage_calls_need_a_token [] [] 7)). reflexivity.
  - apply (proj2 (storage_calls_need_a_token (lit "t0k3n") [demoFile] 7)).
    vm_compute. discriminate.
Defined.

(** ** Sessions end for good *)

Lemma file_stays_cleared (st : State) (ev : Event) :
  file st = None -> (forall f, ev <> ChooseFile (Some f)) ->
  file (react st ev) = None.
Proof.
  intros Hf Hev.
  destruct ev as [o|ok|u|f|o|index value| | | | | |o| | |]; cbn [react].
  - destruct o; exact Hf.
  - destruct ok; exact Hf.
  - exact Hf.
  - destruct f as [f|]; [contradiction (Hev f); reflexivity | exact Hf].
  - destruct o; [reflexivity | exact Hf].
  - destruct (nth_error (columnMappings st) index); exact Hf.
  - exact Hf.
  - reflexivity.
  - exact Hf.
  - unfold handleImport. rewrite Hf. exact Hf.
  - exact Hf.
  - destruct o; [exact Hf | reflexivity].
  - reflexivity.
  - exact Hf.
  - exact Hf.
Qed.

(** X25: the selected file is set by choosing a file and by nothing else:
    from a state without a file (the initial state, and the state after a
    finished import, a failed preview or a reset), no sequence of events in
    which no file is chosen brings a file back, so the Import button sends
    nothing until a new file has been chosen. *)
Theorem no_import_until_a_file_is_chosen (evs : list Event) (st : State) :
  file st = None ->
  Forall (fun ev => forall f, ev <> ChooseFile (Some f)) evs ->
  file (fold_left react evs st) = None /\
  sent (fold_left react evs st) ClickImport = [].
Proof.
  intros Hf Hevs.
  assert (H : file (fold_left react evs st) = None).
  { revert st Hf. induction Hevs as [|ev evs Hev _ IH]; intros st Hf.
    - exact Hf.
    - cbn [fold_left]. apply IH. apply file_stays_cleared; assumption. }
  split; [exact H|].
  cbn [sent]. unfold handleImport. rewrite H. reflexivity.
Qed.

Lemma no_import_until_a_file_is_chosen_witness :
  sent (fold_left react
          [ PreviewDone (PreviewArrived demoPreview); ContinueToImport ]
          (run (fold_left react demoSession initialState) resetImport))
       ClickImport = [].
Proof.
  apply (no_import_until_a_file_is_chosen
           [ PreviewDone (PreviewArrived demoPreview); ContinueToImport ]
           (run (fold_left react demoSession initialState) resetImport)).
  - reflexivity.
  - repeat constructor; intros f; discriminate.
Defined.
